(** * Flamesblue backend: document codec, record schemas and order handlers

    A shallow embedding of [main.py] and [schemas.py].

    - Documents are Python dicts keyed by strings; they are compared with
      [==], which ignores insertion order, so a document is a
      [gmap string value].
    - The values are the ones a BSON document holds after the driver has
      read it: [None], booleans, integers, floats, strings, object
      identifiers, datetimes, lists and nested documents.
    - [bson.ObjectId] and [datetime.isoformat] belong to libraries the
      program imports; they are written out here from their documented
      behaviour (12 bytes rendered as 24 lower-case hexadecimal digits; the
      ISO-8601 rendering of a datetime).
    - Pydantic models are records together with a validating constructor
      that collects the errors of every field and builds the record only
      when there is none. *)

From Stdlib Require Import ZArith QArith Ascii String List Lia.
From Stdlib Require Import Strings.Byte.
From stdpp Require Import gmap strings list fin_maps pretty.

Local Open Scope string_scope.
Local Open Scope list_scope.
Set Warnings "-register-all".

(** ** bson.ObjectId *)

Module ObjectId.

(** An identifier is its [binary] attribute: 12 bytes. *)
Record t := Build { binary : list byte }.

Definition hex_val (c : ascii) : option N :=
  let n := N_of_ascii c in
  if ((48 <=? n) && (n <=? 57))%N then Some (n - 48)%N
  else if ((97 <=? n) && (n <=? 102))%N then Some (n - 87)%N
  else if ((65 <=? n) && (n <=? 70))%N then Some (n - 55)%N
  else None.

Definition hex_digit (n : N) : ascii :=
  ascii_of_N (if (n <? 10)%N then 48 + n else 87 + n)%N.

Definition byte_of_hex (hi lo : ascii) : option byte :=
  match hex_val hi, hex_val lo with
  | Some h, Some l => Byte.of_N (16 * h + l)
  | _, _ => None
  end.

(** [bytes.fromhex] on a string of hexadecimal digit pairs. *)
Fixpoint fromhex (s : list ascii) : option (list byte) :=
  match s with
  | [] => Some []
  | hi :: lo :: rest =>
      match byte_of_hex hi lo, fromhex rest with
      | Some b, Some bs => Some (b :: bs)
      | _, _ => None
      end
  | _ => None
  end.

Definition hexlify (bs : list byte) : list ascii :=
  flat_map (fun b => [hex_digit (Byte.to_N b / 16); hex_digit (Byte.to_N b mod 16)]) bs.

(** [ObjectId(oid)] for a string argument; [None] stands for the
    [InvalidId] exception. *)
Definition new (oid : string) : option t :=
  if (String.length oid =? 24)%nat
  then Build <$> fromhex (list_ascii_of_string oid)
  else None.

(** [ObjectId.is_valid(oid)]: whether [ObjectId(oid)] would succeed. *)
Definition is_valid (oid : string) : bool :=
  match new oid with Some _ => true | None => false end.

(** [str(oid)]: the canonical string form. *)
Definition str (o : t) : string :=
  string_of_list_ascii (hexlify (binary o)).

End ObjectId.

(** ** datetime.datetime *)

Record datetime := {
  year : N; month : N; day : N;
  hour : N; minute : N; second : N; microsecond : N;
  (** [utcoffset()] in minutes; [None] for a naive datetime *)
  utcoffset : option Z
}.

Fixpoint zeros (n : nat) : string :=
  match n with O => "" | S n' => String "0" (zeros n') end.

(** [str.zfill(width)] on the decimal digits of a number. *)
Definition zfill (width : nat) (s : string) : string :=
  zeros (width - String.length s) +:+ s.

Definition format_offset (off : Z) : string :=
  (if (off <? 0)%Z then "-" else "+")
  +:+ zfill 2 (pretty (Z.abs off / 60)%Z) +:+ ":" +:+ zfill 2 (pretty (Z.abs off mod 60)%Z).

(** [datetime.isoformat(sep)]. *)
Definition isoformat_sep (sep : string) (d : datetime) : string :=
  zfill 4 (pretty (year d)) +:+ "-" +:+ zfill 2 (pretty (month d)) +:+ "-"
  +:+ zfill 2 (pretty (day d)) +:+ sep
  +:+ zfill 2 (pretty (hour d)) +:+ ":" +:+ zfill 2 (pretty (minute d)) +:+ ":"
  +:+ zfill 2 (pretty (second d))
  +:+ (if (microsecond d =? 0)%N then "" else "." +:+ zfill 6 (pretty (microsecond d)))
  +:+ match utcoffset d with None => "" | Some off => format_offset off end.

Definition isoformat (d : datetime) : string := isoformat_sep "T" d.

(** ** Python floats: the finite ones are rationals *)

Inductive pyfloat :=
| Finite (q : Q)
| PosInf
| NegInf
| NaN.

(** [x >= b] for a float [x] and an integer bound [b]. *)
Definition float_ge (x : pyfloat) (b : Z) : bool :=
  match x with
  | Finite q => Qle_bool (inject_Z b) q
  | PosInf => true
  | NegInf => false
  | NaN => false
  end.

(** [x < 0]. *)
Definition float_negative (x : pyfloat) : Prop :=
  match x with
  | Finite q => (q < 0)%Q
  | NegInf => True
  | PosInf | NaN => False
  end.

(** ** Document values *)

Inductive value :=
| VNone
| VBool (b : bool)
| VInt (z : Z)
| VFloat (x : pyfloat)
| VStr (s : string)
| VObjectId (o : ObjectId.t)
| VDatetime (d : datetime)
| VList (l : list value)
| VDict (items : list (string * value)).

(** [v.isoformat()] where [hasattr(v, "isoformat")], [None] where the
    attribute is missing. Among the values above only a datetime has it. *)
Definition isoformat_of (v : value) : option string :=
  match v with
  | VDatetime d => Some (isoformat d)
  | _ => None
  end.

Definition hasattr_isoformat (v : value) : bool :=
  match isoformat_of v with Some _ => true | None => false end.

Section Codec.

(** The text [str()] gives for floats and containers (the shortest
    round-tripping decimal, the [repr] of the elements) is left open. *)
Variable py_repr : value → string.

(** [str(v)]. *)
Definition py_str (v : value) : string :=
  match v with
  | VNone => "None"
  | VBool true => "True"
  | VBool false => "False"
  | VInt z => pretty z
  | VStr s => s
  | VObjectId o => ObjectId.str o
  | VDatetime d => isoformat_sep " " d
  | VFloat _ | VList _ | VDict _ => py_repr v
  end.

(** [if "_id" in out: out["id"] = str(out.pop("_id"))] *)
Definition rename_id (out : gmap string value) : gmap string value :=
  match out !! "_id" with
  | Some v => <["id" := VStr (py_str v)]> (delete "_id" out)
  | None => out
  end.

(** One turn of the loop: [if hasattr(v, "isoformat"): out[k] = v.isoformat()] *)
Definition convert_item (out : gmap string value) (kv : string * value)
  : gmap string value :=
  match isoformat_of kv.2 with
  | Some s => <[kv.1 := VStr s]> out
  | None => out
  end.

(** [serialize_doc(doc)]: the loop runs over [list(out.items())], a
    snapshot taken before the first assignment. *)
Definition serialize_doc (doc : gmap string value) : gmap string value :=
  let out := doc in
  let out := rename_id out in
  foldl convert_item out (map_to_list out).

End Codec.

(** ** Dict objects and aliasing

    [serialize_doc] receives a reference to a dict and assigns into a dict;
    the heap below tells the two apart. *)

Definition loc := positive.

(** Statements over a heap of dict objects; [None] is an uncaught
    exception. *)
Definition Py (A : Type) : Type :=
  gmap loc (gmap string value) → option (A * gmap loc (gmap string value)).

Global Instance py_ret : MRet Py := λ A a h, Some (a, h).

Global Instance py_bind : MBind Py := λ A B k m h,
  match m h with
  | Some (a, h') => k a h'
  | None => None
  end.

(** [{**d}]: a new dict with the items of [d]. *)
Definition dict_copy (d : loc) : Py loc :=
  λ h, match h !! d with
       | Some m => let l := fresh (dom h) in Some (l, <[l := m]> h)
       | None => None
       end.

(** [k in d] *)
Definition dict_contains (d : loc) (k : string) : Py bool :=
  λ h, match h !! d with
       | Some m => Some (bool_decide (is_Some (m !! k)), h)
       | None => None
       end.

(** [d.pop(k)]; a missing key raises [KeyError]. *)
Definition dict_pop (d : loc) (k : string) : Py value :=
  λ h, match h !! d with
       | Some m =>
           match m !! k with
           | Some v => Some (v, <[d := delete k m]> h)
           | None => None
           end
       | None => None
       end.

(** [d[k] = v] *)
Definition dict_setitem (d : loc) (k : string) (v : value) : Py unit :=
  λ h, match h !! d with
       | Some m => Some (tt, <[d := <[k := v]> m]> h)
       | None => None
       end.

(** [list(d.items())] *)
Definition dict_items (d : loc) : Py (list (string * value)) :=
  λ h, match h !! d with
       | Some m => Some (map_to_list m, h)
       | None => None
       end.

(** [for x in xs: body(x)] *)
Fixpoint py_for {A} (xs : list A) (body : A → Py unit) : Py unit :=
  match xs with
  | [] => mret tt
  | x :: rest => body x ;; py_for rest body
  end.

Section CodecObjects.

Variable py_repr : value → string.

(** [serialize_doc] statement by statement, on dict objects. *)
Definition serialize_doc_obj (doc : loc) : Py loc :=
  out ← dict_copy doc;
  has_id ← dict_contains out "_id";
  (if has_id : bool
   then v ← dict_pop out "_id"; dict_setitem out "id" (VStr (py_str py_repr v))
   else mret tt);;
  items ← dict_items out;
  py_for items (λ kv,
    match isoformat_of kv.2 with
    | Some s => dict_setitem out kv.1 (VStr s)
    | None => mret tt
    end);;
  mret out.

End CodecObjects.

(** ** Record schemas ([schemas.py]) *)

(** One line of a pydantic [ValidationError]: where, and which rule. *)
Inductive ErrorDetails :=
| literal_error (loc : list string) (expected : list string) (input : string)
| greater_than_equal (loc : list string) (ge : Z).

(** A [ValidationError] carries the errors of all fields. *)
Definition ValidationError := list ErrorDetails.

Inductive result (A : Type) :=
| Ok (a : A)
| Err (e : ValidationError).
Arguments Ok {A} a.
Arguments Err {A} e.

(** The record is built only when no field reported an error. *)
Definition construct {A} (errors : list ErrorDetails) (a : A) : result A :=
  match errors with
  | [] => Ok a
  | _ :: _ => Err errors
  end.

(** [Literal[...]] *)
Definition check_literal (field : string) (expected : list string) (s : string)
  : list ErrorDetails :=
  if bool_decide (s ∈ expected) then [] else [literal_error [field] expected s].

(** [Field(..., ge=b)] on an [int] *)
Definition check_int_ge (field : string) (b : Z) (z : Z) : list ErrorDetails :=
  if (b <=? z)%Z then [] else [greater_than_equal [field] b].

(** [Field(..., ge=b)] on a [float] *)
Definition check_float_ge (field : string) (b : Z) (x : pyfloat) : list ErrorDetails :=
  if float_ge x b then [] else [greater_than_equal [field] b].

(** A field left out takes its default, which is not validated. *)
Definition check_supplied {A} (check : A → list ErrorDetails) (o : option A)
  : list ErrorDetails :=
  match o with
  | Some a => check a
  | None => []
  end.

Definition at_loc (prefix : list string) (e : ErrorDetails) : ErrorDetails :=
  match e with
  | literal_error l ex i => literal_error (prefix ++ l) ex i
  | greater_than_equal l b => greater_than_equal (prefix ++ l) b
  end.

Module User.
Record t := Build {
  name : string;
  phone : string;
  email : option string;
  address : option string;
  role : string;
  is_active : bool
}.

Definition role_literal : list string := ["customer"; "driver"; "admin"].

(** [User(name=..., phone=..., ...)]; [None] for [role] or [is_active]
    is the keyword left out. *)
Definition new (name phone : string) (email address : option string)
    (role : option string) (is_active : option bool) : result t :=
  construct
    (check_supplied (check_literal "role" role_literal) role)
    {| name := name; phone := phone; email := email; address := address;
       role := default "customer" role;
       is_active := default true is_active |}.
End User.

Module Driver.
Record t := Build {
  user_id : string;
  vehicle_type : option string;
  license_plate : option string;
  is_available : bool
}.

Definition new (user_id : string) (vehicle_type license_plate : option string)
    (is_available : option bool) : result t :=
  construct []
    {| user_id := user_id; vehicle_type := vehicle_type;
       license_plate := license_plate;
       is_available := default true is_available |}.
End Driver.

Module OrderItem.
Record t := Build {
  name : string;
  quantity : Z;
  price : pyfloat
}.

Definition new (name : string) (quantity : Z) (price : pyfloat) : result t :=
  construct
    (check_int_ge "quantity" 1 quantity ++ check_float_ge "price" 0 price)
    {| name := name; quantity := quantity; price := price |}.
End OrderItem.

Module Order.
Record t := Build {
  customer_id : string;
  driver_id : option string;
  service_type : string;
  items : list OrderItem.t;
  pickup_address : string;
  delivery_address : string;
  scheduled_at : option datetime;
  notes : option string;
  status : string;
  payment_method : string;
  total : pyfloat
}.

Definition service_type_literal : list string :=
  ["wash_fold"; "dry_clean"; "iron_only"].

(** [Order.model_fields["status"].annotation] *)
Definition status_annotation : list string :=
  ["PENDING"; "DRIVER_ASSIGNED"; "PICKED_UP"; "IN_WASH"; "OUT_FOR_DELIVERY";
   "DELIVERED"].

Definition payment_method_literal : list string := ["cod"; "card"].

(** [List[OrderItem]]: every element goes through [OrderItem]'s own
    validation; its errors are reported under [items.<index>]. *)
Fixpoint validate_items (index : nat) (raw : list (string * Z * pyfloat))
  : list ErrorDetails * list OrderItem.t :=
  match raw with
  | [] => ([], [])
  | (n, q, p) :: rest =>
      let (errors, built) := validate_items (S index) rest in
      match OrderItem.new n q p with
      | Ok item => (errors, item :: built)
      | Err e => (map (at_loc ["items"; pretty index]) e ++ errors, built)
      end
  end.

(** [Order(customer_id=..., ...)]; [None] for [items], [status],
    [payment_method] or [total] is the keyword left out. *)
Definition new (customer_id : string) (driver_id : option string)
    (service_type : string) (items : option (list (string * Z * pyfloat)))
    (pickup_address delivery_address : string)
    (scheduled_at : option datetime) (notes : option string)
    (status payment_method : option string) (total : option pyfloat)
  : result t :=
  let (item_errors, built) := validate_items 0 (default [] items) in
  construct
    (check_literal "service_type" service_type_literal service_type
     ++ item_errors
     ++ check_supplied (check_literal "status" status_annotation) status
     ++ check_supplied (check_literal "payment_method" payment_method_literal)
          payment_method
     ++ check_supplied (check_float_ge "total" 0) total)
    {| customer_id := customer_id; driver_id := driver_id;
       service_type := service_type; items := built;
       pickup_address := pickup_address; delivery_address := delivery_address;
       scheduled_at := scheduled_at; notes := notes;
       status := default "PENDING" status;
       payment_method := default "cod" payment_method;
       total := default (Finite 0) total |}.
End Order.

Module Payment.
Record t := Build {
  order_id : string;
  amount : pyfloat;
  method : string;
  status : string;
  transaction_id : option string
}.

Definition method_literal : list string := ["cod"; "card"].
Definition status_literal : list string := ["PENDING"; "SUCCESS"; "FAILED"].

Definition new (order_id : string) (amount : pyfloat) (method : string)
    (status : option string) (transaction_id : option string) : result t :=
  construct
    (check_float_ge "amount" 0 amount
     ++ check_literal "method" method_literal method
     ++ check_supplied (check_literal "status" status_literal) status)
    {| order_id := order_id; amount := amount; method := method;
       status := default "PENDING" status;
       transaction_id := transaction_id |}.
End Payment.

(** ** The status-update payload ([main.py]) *)

Module StatusUpdate.
Record t := Build { status : string }.

(** The field reuses the annotation of [Order.status]; it has no default. *)
Definition new (status : string) : result t :=
  construct (check_literal "status" Order.status_annotation status)
    {| status := status |}.
End StatusUpdate.

(** ** The document store behind [db] *)

Global Instance byte_eq_dec : EqDecision byte := Byte.byte_eq_dec.
Global Instance ObjectId_eq_dec : EqDecision ObjectId.t.
Proof. solve_decision. Defined.

(** The calls the handlers make on a collection. *)
Inductive store_call :=
| update_one_call (collection : string) (_id : ObjectId.t) (status : string)
| find_one_call (collection : string) (_id : ObjectId.t)
| insert_one_call (collection : string).

(** A live database: its collections, each a sequence of documents in the
    store's natural order, the calls it has served, and the number of
    identifiers it has handed out. *)
Record Database := {
  collections : gmap string (list (gmap string value));
  calls : list store_call;
  issued : N
}.

(** [db[name]]; a collection never written to is empty. *)
Definition collection (d : Database) (name : string) : list (gmap string value) :=
  default [] (collections d !! name).

(** The filter [{"_id": oid}]. *)
Definition matches_id (oid : ObjectId.t) (doc : gmap string value) : bool :=
  match doc !! "_id" with
  | Some (VObjectId o) => bool_decide (o = oid)
  | _ => false
  end.

(** [{"$set": {"status": s}}] on the first document the filter selects;
    the count of documents matched comes back with the new sequence. *)
Fixpoint set_status_first (oid : ObjectId.t) (s : string)
    (docs : list (gmap string value)) : N * list (gmap string value) :=
  match docs with
  | [] => (0%N, [])
  | doc :: rest =>
      if matches_id oid doc
      then (1%N, <["status" := VStr s]> doc :: rest)
      else let (n, rest') := set_status_first oid s rest in (n, doc :: rest')
  end.

(** [db[name].update_one({"_id": oid}, {"$set": {"status": s}})]; the
    result is [matched_count]. *)
Definition update_one (name : string) (oid : ObjectId.t) (s : string)
    (d : Database) : N * Database :=
  let (n, docs) := set_status_first oid s (collection d name) in
  (n, {| collections := <[name := docs]> (collections d);
         calls := calls d ++ [update_one_call name oid s];
         issued := issued d |}).

(** [db[name].find_one({"_id": oid})] *)
Definition find_one (name : string) (oid : ObjectId.t) (d : Database)
  : option (gmap string value) * Database :=
  (find (matches_id oid) (collection d name),
   {| collections := collections d;
      calls := calls d ++ [find_one_call name oid];
      issued := issued d |}).

(** ** Handlers ([main.py]) *)

(** What a handler gives the framework: a body to send with the route's
    status code, an [HTTPException], or any other exception. *)
Inductive outcome (A : Type) :=
| Return (body : A)
| HTTPException (status_code : Z) (detail : string)
| Uncaught.
Arguments Return {A} body.
Arguments HTTPException {A} status_code detail.
Arguments Uncaught {A}.

(** An exception caught by [except Exception as e], with [str(e)]. *)
Record Exception := { exc_str : string }.

Section Handlers.

Variable py_repr : value → string.

(** [update_order_status(order_id, payload)]; [db] is the module-level
    handle, [None] when no store is configured. *)
Definition update_order_status (db : option Database) (order_id : string)
    (payload : StatusUpdate.t)
  : outcome (gmap string value) * option Database :=
  match db with
  | None => (HTTPException 500 "Database not available", db)
  | Some d =>
      if negb (ObjectId.is_valid order_id)
      then (HTTPException 400 "Invalid order id", db)
      else
        match ObjectId.new order_id with
        | None => (Uncaught, db)
        | Some oid =>
            let (matched_count, d1) :=
              update_one "order" oid (StatusUpdate.status payload) d in
            if (matched_count =? 0)%N
            then (HTTPException 404 "Order not found", Some d1)
            else
              let (doc, d2) := find_one "order" oid d1 in
              match doc with
              | Some doc => (Return (serialize_doc py_repr doc), Some d2)
              | None => (Uncaught, Some d2)
              end
        end
  end.

(** [database.py] is not part of the sources at hand: [create_document]
    is whatever function of the order and the store it is there, either
    returning the new identifier or raising. *)
Variable create_document :
  string → Order.t → option Database → (string + Exception) * option Database.

(** [create_order(order)] *)
Definition create_order (db : option Database) (order : Order.t)
  : outcome (gmap string value) * option Database :=
  match create_document "order" order db with
  | (inl oid, db') =>
      (Return (<["id" := VStr oid]> (<["status" := VStr (Order.status order)]> ∅)),
       db')
  | (inr e, db') => (HTTPException 500 (exc_str e), db')
  end.

(** The status code of the route: [@app.post("/api/orders", status_code=201)]
    for a body returned, the exception's own code otherwise. *)
Definition post_orders_status (r : outcome (gmap string value)) : Z :=
  match r with
  | Return _ => 201
  | HTTPException code _ => code
  | Uncaught => 500
  end.

End Handlers.

(** ** The persistence gateway *)

(** [model_dump()] of an item and of an order: every field, [None] for an
    optional field that is unset. *)
Definition dump_optional (o : option string) : value :=
  match o with
  | Some s => VStr s
  | None => VNone
  end.

Definition dump_item (item : OrderItem.t) : value :=
  VDict [("name", VStr (OrderItem.name item));
         ("quantity", VInt (OrderItem.quantity item));
         ("price", VFloat (OrderItem.price item))].

Definition dump_order (o : Order.t) : gmap string value :=
  list_to_map
    [("customer_id", VStr (Order.customer_id o));
     ("driver_id", dump_optional (Order.driver_id o));
     ("service_type", VStr (Order.service_type o));
     ("items", VList (map dump_item (Order.items o)));
     ("pickup_address", VStr (Order.pickup_address o));
     ("delivery_address", VStr (Order.delivery_address o));
     ("scheduled_at",
       match Order.scheduled_at o with Some t => VDatetime t | None => VNone end);
     ("notes", dump_optional (Order.notes o));
     ("status", VStr (Order.status o));
     ("payment_method", VStr (Order.payment_method o));
     ("total", VFloat (Order.total o))].

(** The [n]-th identifier a store hands out: 12 bytes, big-endian. *)
Fixpoint be_bytes (len : nat) (n : N) : list byte :=
  match len with
  | O => []
  | S len' => be_bytes len' (n / 256) ++ [default x00 (Byte.of_N (n mod 256))]
  end.

Definition nth_object_id (n : N) : ObjectId.t := ObjectId.Build (be_bytes 12 n).

(** Modelled from the spec: [database.py], which defines [create_document],
    is not among the sources. The spec's [createDocument] takes a validated
    record, encodes it, inserts it and returns the newly assigned
    identifier; it fails with [StorageUnavailable] when no store connection
    exists at call time. *)
Definition create_document_spec (name : string) (order : Order.t)
    (db : option Database) : (string + Exception) * option Database :=
  match db with
  | None => (inr {| exc_str := "Database not available" |}, None)
  | Some d =>
      let oid := nth_object_id (issued d) in
      (inl (ObjectId.str oid),
       Some {| collections :=
                 <[name := collection d name
                           ++ [<["_id" := VObjectId oid]> (dump_order order)]]>
                   (collections d);
               calls := calls d ++ [insert_one_call name];
               issued := issued d + 1 |})
  end.

(** ** The remaining handlers of [main.py] *)

Module PyObjectId.

(** [PyObjectId.validate(v)]: an [ObjectId] is returned as it is, anything
    [ObjectId.is_valid] refuses raises [ValueError] ([inr], with its
    message), and an accepted string is converted. Of the values above
    [is_valid] accepts only strings. *)
Definition validate (v : value) : ObjectId.t + string :=
  match v with
  | VObjectId o => inl o
  | VStr s =>
      if negb (ObjectId.is_valid s) then inr "Invalid ObjectId"
      else match ObjectId.new s with
           | Some o => inl o
           | None => inr "InvalidId"
           end
  | _ => inr "Invalid ObjectId"
  end.

End PyObjectId.

Section ListOrders.

Variable py_repr : value → string.

(** [database.py] is not part of the sources at hand: [get_documents] is
    whatever function of the collection name, the filter, the limit and the
    store it is there, returning documents or raising. *)
Variable get_documents :
  string → gmap string value → option Z → option Database →
  (list (gmap string value) + Exception) * option Database.

(** [list_orders(limit)]: nothing catches what [get_documents] raises. *)
Definition list_orders (db : option Database) (limit : option Z)
  : outcome (list (gmap string value)) * option Database :=
  match get_documents "order" ∅ limit db with
  | (inl docs, db') => (Return (map (serialize_doc py_repr) docs), db')
  | (inr _, db') => (Uncaught, db')
  end.

(** The route [GET /api/orders?limit=N]: a request without the query
    parameter calls the handler with its default, 50. *)
Definition get_orders (db : option Database) (query_limit : option Z)
  : outcome (list (gmap string value)) * option Database :=
  list_orders db (Some (default 50%Z query_limit)).

End ListOrders.

(** What [test_database] reads of a live [db]: its [name] attribute, when
    it has one, and the outcome of [list_collection_names()]. *)
Record Connection := {
  conn_name : option string;
  conn_collection_names : list string + Exception
}.

(** The two variables [test_database] reads with [os.getenv]. *)
Record Environ := {
  DATABASE_URL : option string;
  DATABASE_NAME : option string
}.

(** The truth value of what [os.getenv] returns: [None] and the empty
    string are false. *)
Definition getenv_truthy (v : option string) : bool :=
  match v with
  | Some s => negb (String.eqb s "")
  | None => false
  end.

(** The [response] dict of [test_database]; its keys are fixed. *)
Record Diagnostic := {
  backend : string;
  database : string;
  database_url : option string;
  database_name : option string;
  connection_status : string;
  diag_collections : list string
}.

Definition set_database (s : string) (r : Diagnostic) : Diagnostic :=
  {| backend := backend r; database := s; database_url := database_url r;
     database_name := database_name r;
     connection_status := connection_status r;
     diag_collections := diag_collections r |}.

Definition set_database_url (s : option string) (r : Diagnostic) : Diagnostic :=
  {| backend := backend r; database := database r; database_url := s;
     database_name := database_name r;
     connection_status := connection_status r;
     diag_collections := diag_collections r |}.

Definition set_database_name (s : option string) (r : Diagnostic) : Diagnostic :=
  {| backend := backend r; database := database r;
     database_url := database_url r; database_name := s;
     connection_status := connection_status r;
     diag_collections := diag_collections r |}.

Definition set_connection_status (s : string) (r : Diagnostic) : Diagnostic :=
  {| backend := backend r; database := database r;
     database_url := database_url r; database_name := database_name r;
     connection_status := s;
     diag_collections := diag_collections r |}.

Definition set_collections (l : list string) (r : Diagnostic) : Diagnostic :=
  {| backend := backend r; database := database r;
     database_url := database_url r; database_name := database_name r;
     connection_status := connection_status r;
     diag_collections := l |}.

(** [test_database()]. The text of an exception is a string of one-byte
    characters, so that [str(e)[:50]] is its first 50 elements. Reading
    [db] and its [name] raises nothing, which leaves the outer [except]
    without a case. *)
Definition test_database (db : option Connection) (env : Environ) : Diagnostic :=
  let response :=
    {| backend := "✅ Running";
       database := "❌ Not Available";
       database_url := None;
       database_name := None;
       connection_status := "Not Connected";
       diag_collections := [] |} in
  let response :=
    match db with
    | Some conn =>
        let response := set_database "✅ Available" response in
        let response := set_database_url (Some "✅ Configured") response in
        let response :=
          set_database_name
            (Some (match conn_name conn with
                   | Some n => n
                   | None => "✅ Connected"
                   end)) response in
        let response := set_connection_status "Connected" response in
        match conn_collection_names conn with
        | inl collections =>
            let response := set_collections (take 10 collections) response in
            set_database "✅ Connected & Working" response
        | inr e =>
            set_database ("⚠️  Connected but Error: " +:+ substring 0 50 (exc_str e)) response
        end
    | None => set_database "⚠️  Available but not initialized" response
    end in
  let response :=
    set_database_url
      (Some (if getenv_truthy (DATABASE_URL env) then "✅ Set" else "❌ Not Set"))
      response in
  let response :=
    set_database_name
      (Some (if getenv_truthy (DATABASE_NAME env) then "✅ Set" else "❌ Not Set"))
      response in
  response.

(** ** Auxiliary notions used to state the properties *)

(** What the loop of [serialize_doc] leaves in place of a value. *)
Definition to_iso (v : value) : value :=
  match isoformat_of v with
  | Some s => VStr s
  | None => v
  end.



Definition is_ok {A} (r : result A) : bool :=
  match r with Ok _ => true | Err _ => false end.

(** The database a status update leaves behind: the first order that
    matches has its status set, and the calls made are logged. *)
Definition after_update (oid : ObjectId.t) (s : string) (d : Database)
    (log : list store_call) : Database :=
  {| collections :=
       <["order" := (set_status_first oid s (collection d "order")).2]>
         (collections d);
     calls := calls d ++ log;
     issued := issued d |}.

(** An order document whose status is one of the declared names. *)
Definition status_declared (doc : gmap string value) : Prop :=
  ∃ s, doc !! "status" = Some (VStr s) ∧ s ∈ Order.status_annotation.

(** A rendering of floats and containers, for running the definitions. *)
Definition repr_stub (v : value) : string := "<repr>".

(** Sample data. *)
Definition sample_oid : ObjectId.t :=
  ObjectId.Build [x65; xa0; xb2; xc3; xd4; xe5; xf6; x07; x18; x29; x3a; x4b].

Definition sample_time : datetime :=
  {| year := 2024; month := 1; day := 9; hour := 7; minute := 5; second := 0;
     microsecond := 0; utcoffset := None |}.

Definition sample_order : Order.t :=
  Order.Build "u1" None "wash_fold" [OrderItem.Build "Shirt" 2 (Finite 5)]
    "12 Mill Lane" "12 Mill Lane" None None "PENDING" "cod" (Finite 0).

Definition sample_user : User.t :=
  User.Build "Ada" "555-0100" None None "customer" true.

Definition sample_driver : Driver.t := Driver.Build "u2" (Some "Van") None true.

Definition sample_payment : Payment.t :=
  Payment.Build "o1" (Finite 10) "card" "PENDING" None.

(** A store whose order collection holds one order, under [sample_oid]. *)
Definition sample_db : Database :=
  {| collections :=
       {[ "order" := [<["_id" := VObjectId sample_oid]> (dump_order sample_order)] ]};
     calls := [];
     issued := 1 |}.

(** A stored document with an identifier and a timestamp. *)
Definition sample_doc : gmap string value :=
  <["_id" := VObjectId sample_oid]>
    (<["created_at" := VDatetime sample_time]> (<["status" := VStr "PENDING"]> ∅)).

Definition sample_heap : gmap loc (gmap string value) := {[ 1%positive := sample_doc ]}.

(** The identifier of [sample_oid] as a client may write it. *)
Definition sample_id_lower : string := "65a0b2c3d4e5f60718293a4b".

Definition delivered : StatusUpdate.t := {| StatusUpdate.status := "DELIVERED" |}.

(** A stored document that has a field [id] of its own next to [_id]. *)
Definition doc_with_id_timestamp : gmap string value :=
  <["_id" := VObjectId sample_oid]> (<["id" := VDatetime sample_time]> ∅).

Definition doc_with_id_text : gmap string value :=
  <["_id" := VObjectId sample_oid]> (<["id" := VStr "legacy-7"]> ∅).

(** More sample data: the order [sample_db] holds, a store without
    orders, a document decoding leaves alone, a [get_documents] that finds
    one order, and a store handle whose listing fails. *)
Definition stored_sample_order : gmap string value :=
  <["_id" := VObjectId sample_oid]> (dump_order sample_order).

Definition empty_db : Database := {| collections := ∅; calls := []; issued := 0 |}.

Definition plain_doc : gmap string value := <["status" := VStr "PENDING"]> ∅.

Definition one_order_found (name : string) (filter : gmap string value)
    (limit : option Z) (db : option Database)
  : (list (gmap string value) + Exception) * option Database :=
  (inl [sample_doc], db).

Definition failing_connection : Connection :=
  {| conn_name := Some "laundry";
     conn_collection_names := inr {| exc_str := "timed out" |} |}.

Definition sample_environ : Environ :=
  {| DATABASE_URL := Some "mongodb://localhost:27017"; DATABASE_NAME := Some "" |}.

(** * Properties *)

(** ** The document codec *)

Section CodecFacts.

Variable py_repr : value → string.

Lemma foldl_convert_item_lookup (l : list (string * value))
    (acc : gmap string value) (k : string) :
  NoDup l.*1 →
  foldl convert_item acc l !! k =
    match (list_to_map l : gmap string value) !! k with
    | Some v =>
        match isoformat_of v with
        | Some s => Some (VStr s)
        | None => acc !! k
        end
    | None => acc !! k
    end.
Proof.
  revert acc. induction l as [|[k0 v0] l IH]; intros acc Hnd; [done|].
  simpl in Hnd. apply NoDup_cons in Hnd as [Hk0 Hnd].
  cbn [foldl]. rewrite IH by done. cbn [list_to_map foldr].
  destruct (decide (k = k0)) as [->|Hne].
  - rewrite lookup_insert_eq.
    rewrite (not_elem_of_list_to_map_1 l k0) by done.
    unfold convert_item; cbn [fst snd].
    destruct (isoformat_of v0); [by rewrite lookup_insert_eq|done].
  - rewrite lookup_insert_ne by done.
    assert (convert_item acc (k0, v0) !! k = acc !! k) as ->; [|done].
    unfold convert_item; cbn [fst snd].
    destruct (isoformat_of v0); [by rewrite lookup_insert_ne|done].
Qed.

(** The loop is a map over the values. *)
Lemma serialize_doc_fmap (d : gmap string value) :
  serialize_doc py_repr d = to_iso <$> rename_id py_repr d.
Proof.
  unfold serialize_doc. apply map_eq; intros k.
  rewrite foldl_convert_item_lookup by apply NoDup_fst_map_to_list.
  rewrite list_to_map_to_list, lookup_fmap.
  destruct (rename_id py_repr d !! k) as [v|] eqn:E; [|done].
  cbn. unfold to_iso. by destruct (isoformat_of v).
Qed.

Lemma rename_id_lookup (d : gmap string value) (k : string) :
  rename_id py_repr d !! k =
    match d !! "_id" with
    | Some v =>
        if decide (k = "id") then Some (VStr (py_str py_repr v))
        else if decide (k = "_id") then None
        else d !! k
    | None => d !! k
    end.
Proof.
  unfold rename_id. destruct (d !! "_id") as [v|] eqn:E; [|done].
  destruct (decide (k = "id")) as [->|Hid]; [by rewrite lookup_insert_eq|].
  rewrite lookup_insert_ne by done.
  destruct (decide (k = "_id")) as [->|H_id]; [by rewrite lookup_delete_eq|].
  by rewrite lookup_delete_ne.
Qed.

Lemma rename_id_no_id (d : gmap string value) : rename_id py_repr d !! "_id" = None.
Proof.
  rewrite rename_id_lookup. destruct (d !! "_id") eqn:E; [|done].
  repeat case_decide; done.
Qed.

Lemma to_iso_idemp (v : value) : to_iso (to_iso v) = to_iso v.
Proof. by destruct v. Qed.

Lemma serialize_doc_no_id (d : gmap string value) : serialize_doc py_repr d !! "_id" = None.
Proof. by rewrite serialize_doc_fmap, lookup_fmap, rename_id_no_id. Qed.

(** C1. Decoding is idempotent: decoding a decoded document gives the
    same document again. *)
Theorem serialize_doc_idempotent (d : gmap string value) :
  serialize_doc py_repr (serialize_doc py_repr d) = serialize_doc py_repr d.
Proof.
  rewrite (serialize_doc_fmap (serialize_doc py_repr d)).
  assert (rename_id py_repr (serialize_doc py_repr d) = serialize_doc py_repr d) as ->.
  { unfold rename_id at 1. by rewrite serialize_doc_no_id. }
  rewrite serialize_doc_fmap, <- map_fmap_compose.
  apply map_fmap_ext; intros k v _. apply to_iso_idemp.
Qed.

(** C4, as the code has it. Decoding renames [_id] to [id], whose value
    is [str] of the stored identifier (for an ObjectId its canonical
    string form); every top-level value with an [isoformat] is replaced
    by that string, except under [_id] itself and under a key [id] that
    the renamed identifier takes over; and the output has no [_id]. *)
Theorem serialize_doc_decodes (d : gmap string value) :
  (∀ v, d !! "_id" = Some v →
        serialize_doc py_repr d !! "id" = Some (VStr (py_str py_repr v)))
  ∧ (∀ o, d !! "_id" = Some (VObjectId o) →
          serialize_doc py_repr d !! "id" = Some (VStr (ObjectId.str o)))
  ∧ (∀ k v s, d !! k = Some v → isoformat_of v = Some s →
              k ≠ "_id" → (k = "id" → d !! "_id" = None) →
              serialize_doc py_repr d !! k = Some (VStr s))
  ∧ serialize_doc py_repr d !! "_id" = None.
Proof.
  assert (∀ v, d !! "_id" = Some v →
    serialize_doc py_repr d !! "id" = Some (VStr (py_str py_repr v))) as Hid.
  { intros v Hv. rewrite serialize_doc_fmap, lookup_fmap, rename_id_lookup, Hv.
    by rewrite decide_True. }
  split; [exact Hid|]. split; [intros o Ho; exact (Hid _ Ho)|].
  split; [|apply serialize_doc_no_id].
  intros k v s Hk Hs H_id Hclash.
  rewrite serialize_doc_fmap, lookup_fmap, rename_id_lookup.
  destruct (d !! "_id") as [u|] eqn:E.
  - destruct (decide (k = "id")) as [->|?]; [by specialize (Hclash eq_refl)|].
    rewrite decide_False by done. rewrite Hk. cbn. unfold to_iso. by rewrite Hs.
  - rewrite Hk. cbn. unfold to_iso. by rewrite Hs.
Qed.

Lemma serialize_doc_dom (d : gmap string value) :
  dom (serialize_doc py_repr d) =
    match d !! "_id" with
    | Some _ => {["id"]} ∪ dom d ∖ {["_id"]}
    | None => dom d
    end.
Proof.
  rewrite serialize_doc_fmap, dom_fmap_L. unfold rename_id.
  destruct (d !! "_id"); [|done].
  by rewrite dom_insert_L, dom_delete_L.
Qed.

Lemma py_bind_some {A B} (m : Py A) (k : A → Py B)
    (h : gmap loc (gmap string value)) (a : A)
    (h' : gmap loc (gmap string value)) :
  m h = Some (a, h') → (m ≫= k) h = k a h'.
Proof. intros H. unfold mbind, py_bind. by rewrite H. Qed.

(** The loop on the dict object [out] assigns what [foldl convert_item]
    computes, and touches no other object. *)
Lemma py_for_convert (out : loc) (items : list (string * value))
    (h : gmap loc (gmap string value)) (m : gmap string value) :
  h !! out = Some m →
  py_for items (λ kv,
    match isoformat_of kv.2 with
    | Some s => dict_setitem out kv.1 (VStr s)
    | None => mret tt
    end) h = Some (tt, <[out := foldl convert_item m items]> h).
Proof.
  revert h m. induction items as [|[k v] items IH]; intros h m Hout.
  - cbn. by rewrite insert_id.
  - cbn [py_for foldl]. unfold mbind, py_bind at 1. cbn [fst snd].
    unfold convert_item at 2; cbn [fst snd].
    destruct (isoformat_of v) as [s|].
    + unfold dict_setitem at 1. rewrite Hout.
      rewrite (IH _ (<[k := VStr s]> m)) by apply lookup_insert_eq.
      by rewrite insert_insert_eq.
    + unfold mret, py_ret at 1. by apply IH.
Qed.

(** On dict objects, [serialize_doc] builds its result in a new object. *)
Lemma serialize_doc_obj_spec (h : gmap loc (gmap string value)) (doc : loc)
    (d : gmap string value) :
  h !! doc = Some d →
  serialize_doc_obj py_repr doc h
    = Some (fresh (dom h), <[fresh (dom h) := serialize_doc py_repr d]> h).
Proof.
  intros Hdoc. set (out := fresh (dom h)).
  assert (h !! out = None) as Hfresh.
  { apply not_elem_of_dom, is_fresh. }
  unfold serialize_doc_obj.
  rewrite (py_bind_some _ _ h out (<[out := d]> h))
    by (unfold dict_copy; by rewrite Hdoc).
  rewrite (py_bind_some _ _ _ (bool_decide (is_Some (d !! "_id")))
             (<[out := d]> h))
    by (unfold dict_contains; by rewrite lookup_insert_eq).
  rewrite (py_bind_some _ _ _ tt (<[out := rename_id py_repr d]> h)).
  2:{ unfold rename_id. destruct (d !! "_id") as [v|] eqn:E.
      - rewrite bool_decide_eq_true_2 by eauto.
        rewrite (py_bind_some _ _ _ v (<[out := delete "_id" d]> h)).
        + unfold dict_setitem. rewrite lookup_insert_eq.
          by rewrite insert_insert_eq.
        + unfold dict_pop. rewrite lookup_insert_eq, E.
          by rewrite insert_insert_eq.
      - rewrite bool_decide_eq_false_2 by (intros [? ?]; done).
        done. }
  rewrite (py_bind_some _ _ _ (map_to_list (rename_id py_repr d))
             (<[out := rename_id py_repr d]> h))
    by (unfold dict_items; by rewrite lookup_insert_eq).
  rewrite (py_bind_some _ _ _ tt (<[out := serialize_doc py_repr d]> h)).
  2:{ rewrite (py_for_convert out _ _ (rename_id py_repr d))
        by apply lookup_insert_eq.
      by rewrite insert_insert_eq. }
  done.
Qed.

(** C9, as the code has it. [serialize_doc] leaves the document it is
    given, and every other dict, as they were: the result is a new
    object. Every top-level field is carried over with its key and value,
    except [_id], the values that have an [isoformat], and a field [id]
    that the renamed identifier takes over; the keys of the result are
    those of the input with [_id] replaced by [id]. *)
Theorem serialize_doc_frame (h : gmap loc (gmap string value)) (doc : loc)
    (d : gmap string value) :
  h !! doc = Some d →
  ∃ (out : loc) (h' : gmap loc (gmap string value)),
    serialize_doc_obj py_repr doc h = Some (out, h')
    ∧ h' !! out = Some (serialize_doc py_repr d)
    ∧ h !! out = None
    ∧ h' !! doc = Some d
    ∧ (∀ l, l ≠ out → h' !! l = h !! l)
    ∧ (∀ k v, d !! k = Some v → k ≠ "_id" → isoformat_of v = None →
              (k = "id" → d !! "_id" = None) →
              serialize_doc py_repr d !! k = Some v)
    ∧ dom (serialize_doc py_repr d) =
        match d !! "_id" with
        | Some _ => {["id"]} ∪ dom d ∖ {["_id"]}
        | None => dom d
        end.
Proof.
  intros Hdoc.
  assert (h !! fresh (dom h) = None) as Hfresh
    by apply not_elem_of_dom, is_fresh.
  exists (fresh (dom h)), (<[fresh (dom h) := serialize_doc py_repr d]> h).
  split; [by apply serialize_doc_obj_spec|].
  split; [apply lookup_insert_eq|]. split; [done|].
  split; [rewrite lookup_insert_ne; [done|congruence]|].
  split; [intros l Hl; by rewrite lookup_insert_ne|].
  split; [|apply serialize_doc_dom].
  intros k v Hk H_id Hiso Hclash.
  rewrite serialize_doc_fmap, lookup_fmap, rename_id_lookup.
  destruct (d !! "_id") as [u|] eqn:E.
  - destruct (decide (k = "id")) as [->|?]; [by specialize (Hclash eq_refl)|].
    rewrite decide_False by done. rewrite Hk. cbn. unfold to_iso. by rewrite Hiso.
  - rewrite Hk. cbn. unfold to_iso. by rewrite Hiso.
Qed.

End CodecFacts.

(** C4 does not hold as stated: a top-level timestamp under the key [id]
    is not turned into its ISO-8601 string when the document also has
    [_id]; the renamed identifier takes its place. *)
Lemma timestamp_under_id_is_replaced :
  doc_with_id_timestamp !! "id" = Some (VDatetime sample_time)
  ∧ isoformat_of (VDatetime sample_time) = Some "2024-01-09T07:05:00"
  ∧ serialize_doc repr_stub doc_with_id_timestamp !! "id"
      = Some (VStr "65a0b2c3d4e5f60718293a4b")
  ∧ serialize_doc repr_stub doc_with_id_timestamp !! "id"
      ≠ Some (VStr "2024-01-09T07:05:00").
Proof. vm_compute. repeat split; done. Qed.

(** C9 does not hold as stated: a field [id] that is neither [_id] nor a
    timestamp is not carried over unchanged when the document has [_id]. *)
Lemma field_id_is_overwritten :
  doc_with_id_text !! "id" = Some (VStr "legacy-7")
  ∧ isoformat_of (VStr "legacy-7") = None
  ∧ serialize_doc repr_stub doc_with_id_text !! "id"
      = Some (VStr "65a0b2c3d4e5f60718293a4b")
  ∧ serialize_doc repr_stub doc_with_id_text !! "id" ≠ Some (VStr "legacy-7").
Proof. vm_compute. repeat split; done. Qed.

(** ** Record schemas *)

Section SchemaFacts.

Lemma construct_ok {A} (errors : list ErrorDetails) (a b : A) :
  construct errors a = Ok b ↔ errors = [] ∧ a = b.
Proof.
  destruct errors; cbn; split.
  - intros [= ->]. done.
  - intros [_ ->]. done.
  - done.
  - intros [? _]. done.
Qed.

Lemma construct_err {A} (errors : list ErrorDetails) (a : A) :
  errors ≠ [] → construct errors a = Err errors.
Proof. by destruct errors. Qed.

Lemma is_ok_construct {A} (errors : list ErrorDetails) (a : A) :
  is_ok (construct errors a) = bool_decide (errors = []).
Proof. by destruct errors. Qed.

Lemma not_ok_err {A} (r : result A) : is_ok r = false → ∃ e, r = Err e.
Proof. destruct r; [done|eauto]. Qed.

Lemma float_negative_not_ge (x : pyfloat) :
  float_negative x → float_ge x 0 = false.
Proof.
  destruct x as [q| | |]; cbn; try done.
  intros Hq. apply not_true_is_false. intros Hle.
  apply Qle_bool_iff in Hle. by apply Qlt_not_le in Hq.
Qed.

Lemma check_float_ge_nil (field : string) (x : pyfloat) :
  check_float_ge field 0 x = [] → ¬ float_negative x.
Proof.
  unfold check_float_ge. intros H Hneg.
  by rewrite (float_negative_not_ge x Hneg) in H.
Qed.

Lemma check_int_ge_nil (field : string) (b z : Z) :
  check_int_ge field b z = [] → (b ≤ z)%Z.
Proof. unfold check_int_ge. destruct (Z.leb_spec b z); done. Qed.

Lemma check_literal_nil (field : string) (expected : list string) (s : string) :
  check_literal field expected s = [] ↔ s ∈ expected.
Proof. unfold check_literal. case_bool_decide; split; done. Qed.

Lemma OrderItem_new_ok (n : string) (q : Z) (p : pyfloat) (item : OrderItem.t) :
  OrderItem.new n q p = Ok item →
  item = OrderItem.Build n q p ∧ (1 ≤ q)%Z ∧ ¬ float_negative p.
Proof.
  unfold OrderItem.new. intros [Herr <-]%construct_ok.
  apply app_eq_nil in Herr as [Hq Hp].
  eauto using check_int_ge_nil, check_float_ge_nil.
Qed.

(** No error among the items means every item passed, in order. *)
Lemma validate_items_nil (index : nat) (raw : list (string * Z * pyfloat))
    (built : list OrderItem.t) :
  Order.validate_items index raw = ([], built) →
  built = map (λ x, OrderItem.Build x.1.1 x.1.2 x.2) raw
  ∧ Forall (λ x, (1 ≤ x.1.2)%Z ∧ ¬ float_negative x.2) raw.
Proof.
  revert index built. induction raw as [|[[n q] p] raw IH]; intros index built.
  - cbn. by intros [= <-].
  - cbn [Order.validate_items].
    destruct (Order.validate_items (S index) raw) as [errors rest] eqn:E.
    destruct (OrderItem.new n q p) as [item|e] eqn:Hitem.
    + intros [= -> <-]. destruct (IH _ _ E) as [-> Hall].
      apply OrderItem_new_ok in Hitem as (-> & Hq & Hp).
      split; [done|]. by constructor.
    + intros [= Happ _]. apply app_eq_nil in Happ as [Hmap _].
      apply map_eq_nil in Hmap as ->.
      unfold OrderItem.new in Hitem.
      destruct (check_int_ge "quantity" 1 q ++ check_float_ge "price" 0 p);
        done.
Qed.

Lemma Order_new_ok cid did st items pa da sch notes status pm total o :
  Order.new cid did st items pa da sch notes status pm total = Ok o →
  st ∈ Order.service_type_literal
  ∧ Order.items o = map (λ x, OrderItem.Build x.1.1 x.1.2 x.2) (default [] items)
  ∧ Forall (λ x, (1 ≤ x.1.2)%Z ∧ ¬ float_negative x.2) (default [] items)
  ∧ (∀ s, status = Some s → s ∈ Order.status_annotation)
  ∧ (∀ m, pm = Some m → m ∈ Order.payment_method_literal)
  ∧ (∀ t, total = Some t → ¬ float_negative t)
  ∧ Order.status o = default "PENDING" status
  ∧ Order.payment_method o = default "cod" pm
  ∧ Order.total o = default (Finite 0) total.
Proof.
  unfold Order.new.
  destruct (Order.validate_items 0 (default [] items)) as [item_errors built] eqn:E.
  intros [Herr <-]%construct_ok. cbn.
  apply app_eq_nil in Herr as [Hst Herr].
  apply app_eq_nil in Herr as [-> Herr].
  apply app_eq_nil in Herr as [Hstatus Herr].
  apply app_eq_nil in Herr as [Hpm Htotal].
  destruct (validate_items_nil _ _ _ E) as [-> Hall].
  split; [by apply check_literal_nil in Hst|].
  do 2 (split; [done|]).
  split; [intros s ->; by apply check_literal_nil in Hstatus|].
  split; [intros m ->; by apply check_literal_nil in Hpm|].
  split; [intros t ->; by apply check_float_ge_nil in Htotal|].
  done.
Qed.

Lemma Payment_new_ok oid amount method status tid p :
  Payment.new oid amount method status tid = Ok p →
  ¬ float_negative amount
  ∧ Payment.amount p = amount
  ∧ Payment.status p = default "PENDING" status.
Proof.
  unfold Payment.new. intros [Herr <-]%construct_ok. cbn.
  apply app_eq_nil in Herr as [Hamount _].
  split; [by apply check_float_ge_nil in Hamount|done].
Qed.

Lemma result_ok_or_err {A} (r : result A) : (∃ a, r = Ok a) ∨ (∃ e, r = Err e).
Proof. destruct r; eauto. Qed.

(** C5. An [OrderItem] with a quantity below 1 or a negative price, an
    [Order] holding such an item or a negative total, and a [Payment]
    with a negative amount all fail with a [ValidationError]: no record
    is built from such an input. *)
Theorem negative_amounts_rejected :
  (∀ n q p, (q < 1)%Z ∨ float_negative p →
            ∃ e, OrderItem.new n q p = Err e)
  ∧ (∀ cid did st items pa da sch notes status pm total,
       Exists (λ x, (x.1.2 < 1)%Z ∨ float_negative x.2) (default [] items)
       ∨ (∃ t, total = Some t ∧ float_negative t) →
       ∃ e, Order.new cid did st items pa da sch notes status pm total = Err e)
  ∧ (∀ oid amount method status tid, float_negative amount →
       ∃ e, Payment.new oid amount method status tid = Err e).
Proof.
  split; [|split].
  - intros n q p Hbad.
    destruct (result_ok_or_err (OrderItem.new n q p)) as [[item Hok]|]; [|done].
    apply OrderItem_new_ok in Hok as (_ & Hq & Hp).
    destruct Hbad; [lia|done].
  - intros cid did st items pa da sch notes status pm total Hbad.
    destruct (result_ok_or_err
      (Order.new cid did st items pa da sch notes status pm total))
      as [[o Hok]|]; [|done].
    apply Order_new_ok in Hok as (_ & _ & Hall & _ & _ & Htotal & _).
    destruct Hbad as [Hex|(t & -> & Hneg)].
    + apply Exists_exists in Hex as (x & Hin & Hx).
      rewrite Forall_forall in Hall. destruct (Hall x Hin) as [Hq Hp].
      destruct Hx; [lia|done].
    + by destruct (Htotal t eq_refl).
  - intros oid amount method status tid Hneg.
    destruct (result_ok_or_err (Payment.new oid amount method status tid))
      as [[p Hok]|]; [|done].
    apply Payment_new_ok in Hok as (Hge & _). done.
Qed.

(** C6. A status outside the six declared names fails validation both in
    [Order] and in the status-update payload, and the payload accepts
    exactly the statuses [Order] accepts. *)
Theorem status_outside_enum_rejected :
  Order.status_annotation
    = ["PENDING"; "DRIVER_ASSIGNED"; "PICKED_UP"; "IN_WASH";
       "OUT_FOR_DELIVERY"; "DELIVERED"]
  ∧ (∀ s, s ∉ Order.status_annotation →
       (∃ e, StatusUpdate.new s = Err e)
       ∧ ∀ cid did st items pa da sch notes pm total,
           ∃ e, Order.new cid did st items pa da sch notes (Some s) pm total
                = Err e)
  ∧ (∀ s, is_ok (StatusUpdate.new s) = bool_decide (s ∈ Order.status_annotation))
  ∧ (∀ s cid did st items pa da sch notes pm total,
       is_ok (Order.new cid did st items pa da sch notes None pm total) = true →
       is_ok (Order.new cid did st items pa da sch notes (Some s) pm total)
       = is_ok (StatusUpdate.new s)).
Proof.
  split; [done|]. split; [|split].
  - intros s Hs. split.
    + unfold StatusUpdate.new. rewrite construct_err; [eauto|].
      rewrite check_literal_nil. done.
    + intros cid did st items pa da sch notes pm total.
      destruct (result_ok_or_err
        (Order.new cid did st items pa da sch notes (Some s) pm total))
        as [[o Hok]|]; [|done].
      apply Order_new_ok in Hok as (_ & _ & _ & Hstatus & _).
      exfalso. exact (Hs (Hstatus s eq_refl)).
  - intros s. unfold StatusUpdate.new. rewrite is_ok_construct.
    apply bool_decide_ext, check_literal_nil.
  - intros s cid did st items pa da sch notes pm total.
    unfold Order.new, StatusUpdate.new.
    destruct (Order.validate_items 0 (default [] items)) as [item_errors built].
    rewrite !is_ok_construct. intros Hnone%bool_decide_eq_true.
    apply app_eq_nil in Hnone as [-> Hnone].
    apply app_eq_nil in Hnone as [-> Hnone].
    cbn [check_supplied app] in Hnone |- *.
    apply app_eq_nil in Hnone as [-> ->].
    by rewrite app_nil_r.
Qed.

(** C8. A record built with the field left out has the declared default:
    [User.is_active] and [Driver.is_available] are true, [Order.status]
    is PENDING, [Order.payment_method] is cod, [Order.total] is 0 and
    [Payment.status] is PENDING. *)
Theorem declared_defaults :
  (∀ name phone email address role u,
     User.new name phone email address role None = Ok u →
     User.is_active u = true)
  ∧ (∀ uid vehicle plate d,
       Driver.new uid vehicle plate None = Ok d → Driver.is_available d = true)
  ∧ (∀ cid did st items pa da sch notes pm total o,
       Order.new cid did st items pa da sch notes None pm total = Ok o →
       Order.status o = "PENDING")
  ∧ (∀ cid did st items pa da sch notes status total o,
       Order.new cid did st items pa da sch notes status None total = Ok o →
       Order.payment_method o = "cod")
  ∧ (∀ cid did st items pa da sch notes status pm o,
       Order.new cid did st items pa da sch notes status pm None = Ok o →
       Order.total o = Finite 0)
  ∧ (∀ oid amount method tid p,
       Payment.new oid amount method None tid = Ok p →
       Payment.status p = "PENDING").
Proof.
  repeat split.
  - intros name phone email address role u.
    unfold User.new. by intros [_ <-]%construct_ok.
  - intros uid vehicle plate d.
    unfold Driver.new. by intros [_ <-]%construct_ok.
  - intros cid did st items pa da sch notes pm total o Hok.
    by apply Order_new_ok in Hok as (_ & _ & _ & _ & _ & _ & -> & _).
  - intros cid did st items pa da sch notes status total o Hok.
    by apply Order_new_ok in Hok as (_ & _ & _ & _ & _ & _ & _ & -> & _).
  - intros cid did st items pa da sch notes status pm o Hok.
    by apply Order_new_ok in Hok as (_ & _ & _ & _ & _ & _ & _ & _ & ->).
  - intros oid amount method tid p Hok.
    by apply Payment_new_ok in Hok as (_ & _ & ->).
Qed.

(** C10. A [User] built without a role is built, and its role is
    customer. *)
Theorem User_role_default (name phone : string) (email address : option string)
    (is_active : option bool) :
  ∃ u, User.new name phone email address None is_active = Ok u
       ∧ User.role u = "customer".
Proof. unfold User.new. cbn. eauto. Qed.

End SchemaFacts.

Lemma negative_amounts_rejected_witness :
  (∃ e, OrderItem.new "Shirt" 0 (Finite 5) = Err e)
  ∧ (∃ e, Order.new "u1" None "wash_fold" (Some [("Shirt", 2%Z, Finite (-5))])
            "12 Mill Lane" "12 Mill Lane" None None None None None = Err e)
  ∧ (∃ e, Payment.new "o1" (Finite (-1)) "cod" None None = Err e).
Proof.
  destruct negative_amounts_rejected as (Hitem & Horder & Hpayment).
  split; [|split].
  - apply Hitem. left. lia.
  - apply Horder. left. cbn. apply Exists_cons_hd. right. reflexivity.
  - apply Hpayment. reflexivity.
Defined.

Lemma status_outside_enum_rejected_witness :
  (∃ e, StatusUpdate.new "CANCELLED" = Err e)
  ∧ (∃ e, Order.new "u1" None "wash_fold" (Some [("Shirt", 2%Z, Finite 5)])
            "12 Mill Lane" "12 Mill Lane" None None (Some "CANCELLED") None None
          = Err e)
  ∧ is_ok (Order.new "u1" None "wash_fold" (Some [("Shirt", 2%Z, Finite 5)])
             "12 Mill Lane" "12 Mill Lane" None None (Some "DELIVERED") None None)
    = is_ok (StatusUpdate.new "DELIVERED").
Proof.
  destruct status_outside_enum_rejected as (_ & Hout & _ & Hsame).
  assert ("CANCELLED" ∉ Order.status_annotation) as Hnot.
  { apply (bool_decide_unpack _). vm_compute. exact I. }
  split; [exact (proj1 (Hout _ Hnot))|]. split.
  - exact (proj2 (Hout _ Hnot) _ _ _ _ _ _ _ _ _ _).
  - apply Hsame. vm_compute. reflexivity.
Defined.

Lemma declared_defaults_witness :
  (User.new "Ada" "555-0100" None None None None = Ok sample_user
   ∧ User.is_active sample_user = true)
  ∧ (Driver.new "u2" (Some "Van") None None = Ok sample_driver
     ∧ Driver.is_available sample_driver = true)
  ∧ (Order.new "u1" None "wash_fold" (Some [("Shirt", 2%Z, Finite 5)])
       "12 Mill Lane" "12 Mill Lane" None None None None None = Ok sample_order
     ∧ Order.status sample_order = "PENDING"
     ∧ Order.payment_method sample_order = "cod"
     ∧ Order.total sample_order = Finite 0)
  ∧ (Payment.new "o1" (Finite 10) "card" None None = Ok sample_payment
     ∧ Payment.status sample_payment = "PENDING").
Proof.
  destruct declared_defaults
    as (Huser & Hdriver & Hstatus & Hmethod & Htotal & Hpayment).
  assert (User.new "Ada" "555-0100" None None None None = Ok sample_user)
    as Hu by reflexivity.
  assert (Driver.new "u2" (Some "Van") None None = Ok sample_driver)
    as Hd by reflexivity.
  assert (Order.new "u1" None "wash_fold" (Some [("Shirt", 2%Z, Finite 5)])
            "12 Mill Lane" "12 Mill Lane" None None None None None
          = Ok sample_order) as Ho by (vm_compute; reflexivity).
  assert (Payment.new "o1" (Finite 10) "card" None None = Ok sample_payment)
    as Hp by (vm_compute; reflexivity).
  split; [split; [exact Hu|exact (Huser _ _ _ _ _ _ Hu)]|].
  split; [split; [exact Hd|exact (Hdriver _ _ _ _ Hd)]|].
  split.
  - split; [exact Ho|]. split; [exact (Hstatus _ _ _ _ _ _ _ _ _ _ _ Ho)|].
    split; [exact (Hmethod _ _ _ _ _ _ _ _ _ _ _ Ho)|].
    exact (Htotal _ _ _ _ _ _ _ _ _ _ _ Ho).
  - split; [exact Hp|exact (Hpayment _ _ _ _ _ Hp)].
Defined.

(** ** Object identifiers *)

Section ObjectIdFacts.





End ObjectIdFacts.

(** ** The store *)

Section StoreFacts.


Lemma matches_id_set_status (oid : ObjectId.t) (s : string)
    (doc : gmap string value) :
  matches_id oid (<["status" := VStr s]> doc) = matches_id oid doc.
Proof. unfold matches_id. by rewrite lookup_insert_ne. Qed.

Lemma set_status_first_none (oid : ObjectId.t) (s : string)
    (docs : list (gmap string value)) :
  Forall (λ doc, matches_id oid doc = false) docs →
  set_status_first oid s docs = (0%N, docs).
Proof.
  induction 1 as [|doc docs Hdoc _ IH]; [done|].
  cbn. by rewrite Hdoc, IH.
Qed.


Lemma collection_update_one (name : string) (oid : ObjectId.t) (s : string)
    (d : Database) :
  collection (update_one name oid s d).2 name
  = (set_status_first oid s (collection d name)).2.
Proof.
  unfold update_one.
  destruct (set_status_first oid s (collection d name)) as [n docs].
  unfold collection at 1. cbn. by rewrite lookup_insert_eq.
Qed.

End StoreFacts.

(** ** The handlers *)

Section HandlerFacts.

Variable py_repr : value → string.

Lemma is_valid_new (s : string) :
  ObjectId.is_valid s = false ↔ ObjectId.new s = None.
Proof. unfold ObjectId.is_valid. destruct (ObjectId.new s); split; done. Qed.

(** C2, as the code has it. For an [order_id] that is not a valid
    ObjectId the handler makes no store call; it fails with 400 when the
    store handle is there, and with 500 when [db] is [None], which is
    tested first. *)
Theorem update_order_status_invalid_id (db : option Database)
    (order_id : string) (payload : StatusUpdate.t) :
  ObjectId.is_valid order_id = false →
  update_order_status py_repr db order_id payload
  = (match db with
     | Some _ => HTTPException 400 "Invalid order id"
     | None => HTTPException 500 "Database not available"
     end, db).
Proof.
  intros Hinvalid. unfold update_order_status.
  destruct db; [|done]. by rewrite Hinvalid.
Qed.


(** C7. When [create_document] returns an identifier, [create_order]
    answers 201 with exactly the fields [id], that identifier, and
    [status], the status of the order, which is PENDING for an order
    built without one; when [create_document] raises, the handler fails
    with a 500 error. *)
Theorem create_order_response
    (create_document :
       string → Order.t → option Database → (string + Exception) * option Database)
    (db : option Database) (order : Order.t) :
  (∀ oid db', create_document "order" order db = (inl oid, db') →
     ∃ body,
       create_order create_document db order = (Return body, db')
       ∧ post_orders_status (Return body) = 201%Z
       ∧ body !! "id" = Some (VStr oid)
       ∧ body !! "status" = Some (VStr (Order.status order))
       ∧ dom body = {["id"; "status"]}
       ∧ (∀ cid did st items pa da sch notes pm total,
            Order.new cid did st items pa da sch notes None pm total = Ok order →
            body !! "status" = Some (VStr "PENDING")))
  ∧ (∀ e db', create_document "order" order db = (inr e, db') →
       create_order create_document db order
       = (HTTPException 500 (exc_str e), db')
       ∧ post_orders_status (HTTPException 500 (exc_str e)) = 500%Z).
Proof.
  split.
  - intros oid db' Hcreate. unfold create_order. rewrite Hcreate.
    eexists. split; [done|]. split; [done|].
    split; [by rewrite lookup_insert_eq|].
    assert (∀ s, (<["id" := VStr oid]> (<["status" := VStr s]> ∅)
                   : gmap string value) !! "status" = Some (VStr s)) as Hstatus.
    { intros s. rewrite lookup_insert_ne by done. by rewrite lookup_insert_eq. }
    split; [apply Hstatus|]. split.
    + rewrite !dom_insert_L, dom_empty_L. set_solver.
    + intros cid did st items pa da sch notes pm total Hok.
      apply Order_new_ok in Hok as (_ & _ & _ & _ & _ & _ & Hs & _).
      rewrite Hstatus, Hs. done.
  - intros e db' Hcreate. unfold create_order. by rewrite Hcreate.
Qed.

End HandlerFacts.

(** C2 does not hold as stated: without a store handle an invalid
    identifier is answered with 500, not 400. *)
Lemma invalid_id_without_store_is_500 :
  ObjectId.is_valid "not-a-valid-id" = false
  ∧ update_order_status repr_stub None "not-a-valid-id" delivered
    = (HTTPException 500 "Database not available", None).
Proof. split; reflexivity. Qed.


(** The scenario of the spec: an order is created, then set to DELIVERED;
    the answer carries that status and the identifier the creation gave. *)
Example create_then_deliver :
  let db0 := Some {| collections := ∅; calls := []; issued := 0 |} in
  let (created, db1) := create_order create_document_spec db0 sample_order in
  created = Return (<["id" := VStr "000000000000000000000000"]>
                      (<["status" := VStr "PENDING"]> ∅))
  ∧ ∃ body,
      (update_order_status repr_stub db1 "000000000000000000000000" delivered).1
      = Return body
      ∧ body !! "status" = Some (VStr "DELIVERED")
      ∧ body !! "id" = Some (VStr "000000000000000000000000")
      ∧ body !! "_id" = None.
Proof. vm_compute. split; [done|]. eexists. repeat split; vm_compute; done. Qed.

Lemma serialize_doc_decodes_witness :
  sample_doc !! "_id" = Some (VObjectId sample_oid)
  ∧ sample_doc !! "created_at" = Some (VDatetime sample_time)
  ∧ serialize_doc repr_stub sample_doc !! "id" = Some (VStr sample_id_lower)
  ∧ serialize_doc repr_stub sample_doc !! "created_at"
    = Some (VStr "2024-01-09T07:05:00").
Proof.
  destruct (serialize_doc_decodes repr_stub sample_doc) as (_ & Hid & Hiso & _).
  assert (sample_doc !! "_id" = Some (VObjectId sample_oid)) as H_id
    by (vm_compute; reflexivity).
  assert (sample_doc !! "created_at" = Some (VDatetime sample_time)) as Hat
    by (vm_compute; reflexivity).
  split; [exact H_id|]. split; [exact Hat|]. split.
  - exact (Hid sample_oid H_id).
  - apply (Hiso "created_at" (VDatetime sample_time)).
    + exact Hat.
    + vm_compute; reflexivity.
    + discriminate.
    + discriminate.
Defined.

Lemma serialize_doc_frame_witness :
  sample_heap !! 1%positive = Some sample_doc
  ∧ ∃ out h',
      serialize_doc_obj repr_stub 1%positive sample_heap = Some (out, h')
      ∧ h' !! out = Some (serialize_doc repr_stub sample_doc)
      ∧ h' !! 1%positive = Some sample_doc
      ∧ serialize_doc repr_stub sample_doc !! "status" = Some (VStr "PENDING").
Proof.
  assert (sample_heap !! 1%positive = Some sample_doc) as Hdoc
    by (vm_compute; reflexivity).
  split; [exact Hdoc|].
  destruct (serialize_doc_frame repr_stub sample_heap 1%positive sample_doc Hdoc)
    as (out & h' & Hrun & Hout & _ & Hkeep & _ & Hframe & _).
  exists out, h'. split; [exact Hrun|]. split; [exact Hout|].
  split; [exact Hkeep|].
  apply Hframe.
  - vm_compute; reflexivity.
  - discriminate.
  - reflexivity.
  - discriminate.
Defined.

Lemma update_order_status_invalid_id_witness :
  ObjectId.is_valid "not-a-valid-id" = false
  ∧ update_order_status repr_stub (Some sample_db) "not-a-valid-id" delivered
    = (HTTPException 400 "Invalid order id", Some sample_db).
Proof.
  split; [reflexivity|].
  apply (update_order_status_invalid_id repr_stub (Some sample_db)).
  reflexivity.
Defined.


Lemma create_order_response_witness :
  Order.new "u1" None "wash_fold" (Some [("Shirt", 2%Z, Finite 5)])
    "12 Mill Lane" "12 Mill Lane" None None None None None = Ok sample_order
  ∧ (∃ body db',
       create_order create_document_spec (Some sample_db) sample_order
       = (Return body, db')
       ∧ body !! "id" = Some (VStr "000000000000000000000001")
       ∧ body !! "status" = Some (VStr "PENDING"))
  ∧ create_order create_document_spec None sample_order
    = (HTTPException 500 "Database not available", None).
Proof.
  assert (Order.new "u1" None "wash_fold" (Some [("Shirt", 2%Z, Finite 5)])
            "12 Mill Lane" "12 Mill Lane" None None None None None
          = Ok sample_order) as Hnew by (vm_compute; reflexivity).
  destruct (create_order_response create_document_spec (Some sample_db)
              sample_order) as [Hok _].
  destruct (create_order_response create_document_spec None sample_order)
    as [_ Hraise].
  split; [exact Hnew|]. split.
  - destruct (Hok _ _ eq_refl) as (body & Hrun & _ & Hid & _ & _ & Hpending).
    eexists body, _. split; [exact Hrun|]. split; [exact Hid|].
    exact (Hpending _ _ _ _ _ _ _ _ _ _ Hnew).
  - exact (proj1 (Hraise _ _ eq_refl)).
Defined.


(** * Further properties *)

(** ** More on the document codec *)

Section CodecMore.

Variable py_repr : value → string.

Lemma serialize_doc_lookup (d : gmap string value) (k : string) :
  serialize_doc py_repr d !! k = to_iso <$> rename_id py_repr d !! k.
Proof. by rewrite serialize_doc_fmap, lookup_fmap. Qed.

Lemma to_iso_plain (v : value) : isoformat_of (to_iso v) = None.
Proof. by destruct v. Qed.

Lemma to_iso_id (v : value) : isoformat_of v = None → to_iso v = v.
Proof. unfold to_iso. by intros ->. Qed.

Lemma rename_id_None (d : gmap string value) :
  d !! "_id" = None → rename_id py_repr d = d.
Proof. unfold rename_id. by intros ->. Qed.

(** X1. No top-level value of a decoded document is a timestamp: none has
    an [isoformat] left. *)
Theorem serialize_doc_no_timestamp (d : gmap string value) (k : string)
    (v : value) :
  serialize_doc py_repr d !! k = Some v → isoformat_of v = None.
Proof.
  rewrite serialize_doc_lookup. intros (u & _ & ->)%fmap_Some.
  apply to_iso_plain.
Qed.

(** X2. The documents decoding leaves as they are, are exactly those
    without [_id] and without a top-level timestamp. *)
Theorem serialize_doc_fixed_point (d : gmap string value) :
  serialize_doc py_repr d = d
  ↔ d !! "_id" = None ∧ ∀ k v, d !! k = Some v → isoformat_of v = None.
Proof.
  split.
  - intros Hfix. split.
    + rewrite <- Hfix. apply serialize_doc_no_id.
    + intros k v Hk. rewrite <- Hfix, serialize_doc_lookup in Hk.
      apply fmap_Some in Hk as (u & _ & ->). apply to_iso_plain.
  - intros [H_id Hplain]. rewrite serialize_doc_fmap, rename_id_None by done.
    apply map_eq; intros k. rewrite lookup_fmap.
    destruct (d !! k) as [v|] eqn:Hk; [|done].
    cbn. f_equal. eauto using to_iso_id.
Qed.

(** X3. Decoding keeps the number of fields, except that a document with
    both [_id] and [id] loses one. *)
Theorem serialize_doc_size (d : gmap string value) :
  size (serialize_doc py_repr d)
  = match d !! "_id", d !! "id" with
    | Some _, Some _ => (size d - 1)%nat
    | _, _ => size d
    end.
Proof.
  rewrite serialize_doc_fmap, map_size_fmap. unfold rename_id.
  destruct (d !! "_id") as [u|] eqn:H_id; [|done].
  assert (size (delete "_id" d) = (size d - 1)%nat) as Hdel
    by (rewrite map_size_delete_Some by eauto; lia).
  assert (size d ≠ 0%nat) as Hpos.
  { intros ->%map_size_empty_inv. by rewrite lookup_empty in H_id. }
  destruct (d !! "id") as [w|] eqn:Hid.
  - rewrite map_size_insert_Some by (rewrite lookup_delete_ne; eauto).
    done.
  - rewrite map_size_insert_None by (by rewrite lookup_delete_ne).
    lia.
Qed.

(** X4. In a document with [_id], what was stored under [id] has no
    influence on the result. *)
Theorem serialize_doc_ignores_id (d : gmap string value) (u w : value) :
  d !! "_id" = Some u →
  serialize_doc py_repr (<["id" := w]> d) = serialize_doc py_repr d.
Proof.
  intros H_id. rewrite !serialize_doc_fmap. f_equal. unfold rename_id.
  rewrite lookup_insert_ne, H_id by done.
  rewrite delete_insert_ne by done. by rewrite insert_insert_eq.
Qed.

(** X5. Decoding commutes with setting a field other than [_id] and [id]:
    the new value comes out converted as any other, the rest of the result
    is what it was. *)
Theorem serialize_doc_insert (d : gmap string value) (k : string) (w : value) :
  k ≠ "_id" → k ≠ "id" →
  serialize_doc py_repr (<[k := w]> d)
  = <[k := to_iso w]> (serialize_doc py_repr d).
Proof.
  intros H_id Hid. rewrite !serialize_doc_fmap, <- fmap_insert. f_equal.
  unfold rename_id. rewrite lookup_insert_ne by done.
  destruct (d !! "_id"); [|done].
  rewrite delete_insert_ne by done. by rewrite insert_insert_ne.
Qed.

End CodecMore.

(** ** Identifiers and [PyObjectId.validate] *)

Section IdentifierMore.

Lemma byte_of_hex_hexlify (b : byte) :
  ObjectId.byte_of_hex (ObjectId.hex_digit (Byte.to_N b / 16))
    (ObjectId.hex_digit (Byte.to_N b mod 16)) = Some b.
Proof. destruct b; reflexivity. Qed.

Lemma fromhex_hexlify (bs : list byte) :
  ObjectId.fromhex (ObjectId.hexlify bs) = Some bs.
Proof.
  induction bs as [|b bs IH]; [done|].
  cbn [ObjectId.hexlify flat_map app]. cbn [ObjectId.fromhex].
  rewrite byte_of_hex_hexlify.
  change (flat_map _ bs) with (ObjectId.hexlify bs). by rewrite IH.
Qed.

Lemma length_hexlify (bs : list byte) :
  List.length (ObjectId.hexlify bs) = (2 * List.length bs)%nat.
Proof.
  induction bs as [|b bs IH]; [done|].
  cbn [ObjectId.hexlify flat_map app List.length].
  change (flat_map _ bs) with (ObjectId.hexlify bs). rewrite IH. lia.
Qed.

Lemma length_string_of_list_ascii (l : list ascii) :
  String.length (string_of_list_ascii l) = List.length l.
Proof. induction l as [|c l IH]; [done|]. cbn. by rewrite IH. Qed.




(** The canonical string of a 12-byte identifier reads back as it. *)
Lemma ObjectId_new_str (o : ObjectId.t) :
  List.length (ObjectId.binary o) = 12%nat →
  ObjectId.new (ObjectId.str o) = Some o.
Proof.
  intros Hlen. unfold ObjectId.new, ObjectId.str.
  rewrite length_string_of_list_ascii, length_hexlify, Hlen. cbn [Nat.eqb Nat.mul Nat.add].
  rewrite list_ascii_of_string_of_list_ascii, fromhex_hexlify.
  by destruct o.
Qed.

Lemma is_valid_true (s : string) (o : ObjectId.t) :
  ObjectId.new s = Some o → ObjectId.is_valid s = true.
Proof. unfold ObjectId.is_valid. by intros ->. Qed.

(** X6. [PyObjectId.validate] reads the canonical string of an identifier
    back as that identifier: what [serialize_doc] puts under [id] for a
    12-byte [_id] validates to the [_id] it came from. *)
Theorem validate_canonical_string (o : ObjectId.t) :
  List.length (ObjectId.binary o) = 12%nat →
  PyObjectId.validate (VStr (ObjectId.str o)) = inl o.
Proof.
  intros Hnew%ObjectId_new_str. unfold PyObjectId.validate.
  by rewrite (is_valid_true _ _ Hnew), Hnew.
Qed.


(** X8. [PyObjectId.validate] fails only with the [ValueError] of its own
    check, and only on a value that is neither an [ObjectId] nor a string
    [ObjectId.is_valid] accepts: the conversion after the check never
    raises. *)
Theorem validate_failure (v : value) (msg : string) :
  PyObjectId.validate v = inr msg →
  msg = "Invalid ObjectId"
  ∧ (∀ o, v ≠ VObjectId o)
  ∧ (∀ s, v = VStr s → ObjectId.is_valid s = false).
Proof.
  unfold PyObjectId.validate.
  destruct v as [| | | |s|o| | |]; try (intros [= <-]; by repeat split).
  unfold ObjectId.is_valid.
  destruct (ObjectId.new s) as [o|] eqn:Hnew; cbn.
  - intros Habs. discriminate Habs.
  - intros [= <-]. repeat split; [done|].
    intros s' [= <-]. by rewrite Hnew.
Qed.

End IdentifierMore.

(** ** More on the status update *)

Section StatusUpdateMore.

Variable py_repr : value → string.

Lemma find_None_Forall {A} (f : A → bool) (l : list A) :
  find f l = None ↔ Forall (λ y, f y = false) l.
Proof.
  induction l as [|x l IH]; cbn; [by split|].
  destruct (f x) eqn:Hx.
  - split; [done|]. intros Hall%Forall_cons_1. destruct Hall. congruence.
  - rewrite IH. split; [by constructor|]. by intros [_ ?]%Forall_cons_1.
Qed.

Lemma find_Some_split {A} (f : A → bool) (l : list A) (x : A) :
  find f l = Some x ↔
  ∃ pre post, l = pre ++ x :: post ∧ Forall (λ y, f y = false) pre ∧ f x = true.
Proof.
  split.
  - induction l as [|y l IH]; cbn; [done|].
    destruct (f y) eqn:Hy.
    + intros [= ->]. by exists [], l.
    + intros (pre & post & -> & Hpre & Hx)%IH.
      exists (y :: pre), post. split; [done|]. split; [by constructor|done].
  - intros (pre & post & -> & Hpre & Hx).
    induction Hpre as [|y pre Hy _ IH]; cbn; [by rewrite Hx|by rewrite Hy].
Qed.

Lemma find_Exists {A} (f : A → bool) (l : list A) :
  Exists (λ y, f y = true) l → ∃ x, find f l = Some x.
Proof.
  intros Hex. destruct (find f l) as [x|] eqn:E; [eauto|].
  apply find_None_Forall in E. apply Exists_exists in Hex as (y & Hin & Hy).
  rewrite Forall_forall in E. specialize (E y Hin). congruence.
Qed.

Lemma set_status_first_split (oid : ObjectId.t) (s : string)
    (pre post : list (gmap string value)) (doc : gmap string value) :
  Forall (λ y, matches_id oid y = false) pre → matches_id oid doc = true →
  set_status_first oid s (pre ++ doc :: post)
  = (1%N, pre ++ <["status" := VStr s]> doc :: post).
Proof.
  intros Hpre Hdoc. induction Hpre as [|y pre Hy _ IH]; cbn.
  - by rewrite Hdoc.
  - by rewrite Hy, IH.
Qed.

(** The handler on a live store and a valid identifier, in one equation. *)
Lemma update_order_status_run (d : Database) (order_id : string)
    (payload : StatusUpdate.t) (oid : ObjectId.t) :
  ObjectId.new order_id = Some oid →
  update_order_status py_repr (Some d) order_id payload
  = let s := StatusUpdate.status payload in
    match find (matches_id oid) (collection d "order") with
    | None =>
        (HTTPException 404 "Order not found",
         Some (after_update oid s d [update_one_call "order" oid s]))
    | Some doc =>
        (Return (serialize_doc py_repr (<["status" := VStr s]> doc)),
         Some (after_update oid s d
                 [update_one_call "order" oid s; find_one_call "order" oid]))
    end.
Proof.
  intros Hnew. unfold update_order_status.
  rewrite (is_valid_true _ _ Hnew), Hnew. cbn [negb].
  set (s := StatusUpdate.status payload).
  pose proof (collection_update_one "order" oid s d) as Hcoll.
  unfold update_one in *. unfold after_update.
  destruct (find (matches_id oid) (collection d "order")) as [doc|] eqn:Hfind.
  - apply find_Some_split in Hfind as (pre & post & Hsplit & Hpre & Hdoc).
    rewrite Hsplit in Hcoll |- *.
    rewrite set_status_first_split in Hcoll |- * by done.
    cbn [snd] in Hcoll. cbn [N.eqb snd]. unfold find_one. rewrite Hcoll.
    rewrite (proj2 (find_Some_split _ _ (<["status" := VStr s]> doc))).
    + cbn. by rewrite <- app_assoc.
    + exists pre, post. by rewrite matches_id_set_status.
  - apply find_None_Forall in Hfind.
    rewrite set_status_first_none by done. done.
Qed.

Lemma collection_after_update_order (oid : ObjectId.t) (s : string)
    (d : Database) (log : list store_call) :
  collection (after_update oid s d log) "order"
  = (set_status_first oid s (collection d "order")).2.
Proof. unfold collection at 1. cbn. by rewrite lookup_insert_eq. Qed.

Lemma collection_after_update_other (oid : ObjectId.t) (s : string)
    (d : Database) (log : list store_call) (name : string) :
  name ≠ "order" →
  collection (after_update oid s d log) name = collection d name.
Proof. intros Hne. unfold collection. cbn. by rewrite lookup_insert_ne. Qed.


(** X10. A successful status update changes the first order that carries
    the identifier, and only its status: the orders before and after it,
    every other collection and the count of identifiers stay as they were;
    the store has served one [update_one] and one [find_one]. *)
Theorem update_order_status_effect (d : Database) (order_id : string)
    (payload : StatusUpdate.t) (oid : ObjectId.t) (doc : gmap string value) :
  ObjectId.new order_id = Some oid →
  find (matches_id oid) (collection d "order") = Some doc →
  ∃ d' pre post,
    (update_order_status py_repr (Some d) order_id payload).2 = Some d'
    ∧ collection d "order" = pre ++ doc :: post
    ∧ Forall (λ x, matches_id oid x = false) pre
    ∧ collection d' "order"
      = pre ++ <["status" := VStr (StatusUpdate.status payload)]> doc :: post
    ∧ (∀ name, name ≠ "order" → collection d' name = collection d name)
    ∧ calls d'
      = calls d ++ [update_one_call "order" oid (StatusUpdate.status payload);
                    find_one_call "order" oid]
    ∧ issued d' = issued d.
Proof.
  intros Hnew Hfind. rewrite (update_order_status_run _ _ _ _ Hnew). cbn zeta.
  rewrite Hfind. cbn [snd].
  apply find_Some_split in Hfind as (pre & post & Hsplit & Hpre & Hdoc).
  eexists _, pre, post. split; [done|]. split; [done|]. split; [done|].
  split.
  - rewrite collection_after_update_order, Hsplit.
    by rewrite set_status_first_split.
  - split; [intros name Hname; by apply collection_after_update_other|done].
Qed.

(** X11. A status update that finds no order (404) leaves every collection
    as it was; the store has served one [update_one] and no [find_one]. *)
Theorem update_order_status_not_found_effect (d : Database) (order_id : string)
    (payload : StatusUpdate.t) (oid : ObjectId.t) :
  ObjectId.new order_id = Some oid →
  Forall (λ doc, matches_id oid doc = false) (collection d "order") →
  ∃ d',
    update_order_status py_repr (Some d) order_id payload
    = (HTTPException 404 "Order not found", Some d')
    ∧ (∀ name, collection d' name = collection d name)
    ∧ calls d'
      = calls d ++ [update_one_call "order" oid (StatusUpdate.status payload)]
    ∧ issued d' = issued d.
Proof.
  intros Hnew Hnone. rewrite (update_order_status_run _ _ _ _ Hnew). cbn zeta.
  rewrite (proj2 (find_None_Forall _ _) Hnone).
  eexists. split; [done|]. split; [|done].
  intros name. destruct (decide (name = "order")) as [->|Hne].
  - rewrite collection_after_update_order. by rewrite set_status_first_none.
  - by apply collection_after_update_other.
Qed.

(** X12. The answer to a successful status update is the decoded form of
    the order as it was stored, with the status replaced: no other field of
    the answer depends on the update. *)
Theorem update_order_status_body (d : Database) (order_id : string)
    (payload : StatusUpdate.t) (oid : ObjectId.t) (doc : gmap string value) :
  ObjectId.new order_id = Some oid →
  find (matches_id oid) (collection d "order") = Some doc →
  (update_order_status py_repr (Some d) order_id payload).1
  = Return (<["status" := VStr (StatusUpdate.status payload)]>
              (serialize_doc py_repr doc)).
Proof.
  intros Hnew Hfind. rewrite (update_order_status_run _ _ _ _ Hnew). cbn zeta.
  rewrite Hfind. cbn [fst]. f_equal.
  rewrite !serialize_doc_fmap.
  assert (rename_id py_repr
            (<["status" := VStr (StatusUpdate.status payload)]> doc)
          = <["status" := VStr (StatusUpdate.status payload)]>
              (rename_id py_repr doc)) as ->.
  { unfold rename_id. rewrite lookup_insert_ne by done.
    destruct (doc !! "_id"); [|done].
    rewrite delete_insert_ne by done. by rewrite insert_insert_ne. }
  by rewrite fmap_insert.
Qed.

End StatusUpdateMore.

Section StatusUpdateSequences.

Variable py_repr : value → string.

Lemma set_status_first_again (oid : ObjectId.t) (s1 s2 : string)
    (docs : list (gmap string value)) :
  set_status_first oid s2 (set_status_first oid s1 docs).2
  = set_status_first oid s2 docs.
Proof.
  destruct (find (matches_id oid) docs) as [doc|] eqn:Hfind.
  - apply find_Some_split in Hfind as (pre & post & -> & Hpre & Hdoc).
    rewrite (set_status_first_split oid s1) by done. cbn [snd].
    rewrite !set_status_first_split
      by (done || by rewrite matches_id_set_status).
    by rewrite insert_insert_eq.
  - apply find_None_Forall in Hfind.
    by rewrite (set_status_first_none oid s1).
Qed.

Lemma find_set_status_first (oid : ObjectId.t) (s : string)
    (docs : list (gmap string value)) :
  find (matches_id oid) (set_status_first oid s docs).2
  = (λ doc, <["status" := VStr s]> doc) <$> find (matches_id oid) docs.
Proof.
  destruct (find (matches_id oid) docs) as [doc|] eqn:Hfind.
  - apply find_Some_split in Hfind as (pre & post & -> & Hpre & Hdoc).
    rewrite set_status_first_split by done. cbn [snd fmap option_fmap option_map].
    apply find_Some_split. exists pre, post.
    by rewrite matches_id_set_status.
  - apply find_None_Forall in Hfind.
    rewrite set_status_first_none by done. cbn.
    by apply find_None_Forall.
Qed.

(** X13. The last status update wins, whatever the status before it: after
    any update of an order, a second update gives the answer, and leaves
    the collections, that it would have given and left without the first.
    In particular a repeated update changes nothing further. *)
Theorem update_order_status_last_wins (d : Database) (order_id : string)
    (first second : StatusUpdate.t) :
  ∃ d1,
    (update_order_status py_repr (Some d) order_id first).2 = Some d1
    ∧ (update_order_status py_repr (Some d1) order_id second).1
      = (update_order_status py_repr (Some d) order_id second).1
    ∧ ∃ d2 d2',
        (update_order_status py_repr (Some d1) order_id second).2 = Some d2
        ∧ (update_order_status py_repr (Some d) order_id second).2 = Some d2'
        ∧ ∀ name, collection d2 name = collection d2' name.
Proof.
  destruct (ObjectId.new order_id) as [oid|] eqn:Hnew.
  - set (s1 := StatusUpdate.status first).
    set (s2 := StatusUpdate.status second).
    assert (∃ log, (update_order_status py_repr (Some d) order_id first).2
                   = Some (after_update oid s1 d log)) as [log Hfirst].
    { rewrite (update_order_status_run _ _ _ _ _ Hnew). cbn zeta.
      destruct (find (matches_id oid) (collection d "order")); eauto. }
    exists (after_update oid s1 d log). split; [done|].
    rewrite !(update_order_status_run _ _ _ _ _ Hnew). cbn zeta. fold s2.
    rewrite collection_after_update_order, find_set_status_first.
    destruct (find (matches_id oid) (collection d "order")) as [doc|];
      cbn [fmap option_fmap option_map fst snd].
    + split; [by rewrite insert_insert_eq|].
      eexists _, _. split; [done|]. split; [done|].
      intros name. destruct (decide (name = "order")) as [->|Hne].
      * rewrite !collection_after_update_order.
        by rewrite set_status_first_again.
      * by rewrite !collection_after_update_other.
    + split; [done|].
      eexists _, _. split; [done|]. split; [done|].
      intros name. destruct (decide (name = "order")) as [->|Hne].
      * rewrite !collection_after_update_order.
        by rewrite set_status_first_again.
      * by rewrite !collection_after_update_other.
  - apply is_valid_new in Hnew. unfold update_order_status. rewrite Hnew.
    cbn. exists d. split; [done|]. split; [done|]. by exists d, d.
Qed.


(** X15. Status updates with a validated payload keep the orders' statuses
    within the declared names: if every stored order has one of them
    before the request, every stored order has one after it. *)
Theorem update_order_status_keeps_declared (d d' : Database)
    (order_id s : string) (payload : StatusUpdate.t) :
  StatusUpdate.new s = Ok payload →
  Forall status_declared (collection d "order") →
  (update_order_status py_repr (Some d) order_id payload).2 = Some d' →
  Forall status_declared (collection d' "order").
Proof.
  intros Hpayload Hinv.
  assert (StatusUpdate.status payload ∈ Order.status_annotation) as Hs.
  { unfold StatusUpdate.new in Hpayload.
    apply construct_ok in Hpayload as [Hnil <-]. by apply check_literal_nil in Hnil. }
  destruct (ObjectId.new order_id) as [oid|] eqn:Hnew.
  - assert (∃ log, (update_order_status py_repr (Some d) order_id payload).2
              = Some (after_update oid (StatusUpdate.status payload) d log))
      as [log ->].
    { rewrite (update_order_status_run _ _ _ _ _ Hnew). cbn zeta.
      destruct (find (matches_id oid) (collection d "order")); eauto. }
    intros [= <-]. rewrite collection_after_update_order.
    destruct (find (matches_id oid) (collection d "order")) as [doc|] eqn:Hfind.
    + apply find_Some_split in Hfind as (pre & post & Hsplit & Hpre & Hdoc).
      rewrite Hsplit in Hinv |- *. rewrite set_status_first_split by done.
      cbn [snd]. apply Forall_app in Hinv as [Hpre' Hrest].
      apply Forall_cons_1 in Hrest as [_ Hpost].
      apply Forall_app. split; [done|]. constructor; [|done].
      exists (StatusUpdate.status payload). by rewrite lookup_insert_eq.
    + apply find_None_Forall in Hfind. by rewrite set_status_first_none.
  - apply is_valid_new in Hnew. unfold update_order_status. rewrite Hnew.
    cbn. by intros [= <-].
Qed.

End StatusUpdateSequences.

(** ** The other handlers *)

Section OtherHandlers.

Variable py_repr : value → string.

(** X16. [GET /api/orders] asks [get_documents] for the orders with an
    empty filter and the given limit, 50 when the request has none. What it
    returns has one decoded document per document found, in the same
    order, none with an [_id] or a top-level timestamp; an exception of
    [get_documents] is not caught. *)
Theorem get_orders_decoded
    (get_documents :
       string → gmap string value → option Z → option Database →
       (list (gmap string value) + Exception) * option Database)
    (db : option Database) (query_limit : option Z) :
  match get_documents "order" ∅ (Some (default 50%Z query_limit)) db with
  | (inl docs, db') =>
      ∃ out,
        get_orders py_repr get_documents db query_limit = (Return out, db')
        ∧ List.length out = List.length docs
        ∧ (∀ i doc, docs !! i = Some doc →
                    out !! i = Some (serialize_doc py_repr doc))
        ∧ Forall (λ o, o !! "_id" = None
                       ∧ ∀ k v, o !! k = Some v → isoformat_of v = None) out
  | (inr e, db') =>
      get_orders py_repr get_documents db query_limit = (Uncaught, db')
  end.
Proof.
  unfold get_orders, list_orders.
  destruct (get_documents "order" ∅ (Some (default 50%Z query_limit)) db)
    as [[docs|e] db']; [|done].
  eexists. split; [done|]. split; [by rewrite length_map|]. split.
  - intros i doc Hi. change (map ?f ?l) with (f <$> l).
    by rewrite list_lookup_fmap, Hi.
  - apply Forall_forall. intros o Ho.
    apply list_elem_of_In, in_map_iff in Ho as (doc & <- & _).
    split; [apply serialize_doc_no_id|].
    intros k v. rewrite serialize_doc_fmap, lookup_fmap.
    intros (u & _ & ->)%fmap_Some. by destruct u.
Qed.

(** X17. [create_order] on an order that [Order] built answers in one of
    two ways: a body whose [status] is the status supplied, PENDING when
    none was, always one of the declared names, with the identifier
    [create_document] returned under [id]; or an [HTTPException] 500 whose
    detail is the text of what [create_document] raised. *)
Theorem create_order_cases
    (create_document :
       string → Order.t → option Database → (string + Exception) * option Database)
    (db : option Database) cid did st items pa da sch notes status pm total
    (order : Order.t) :
  Order.new cid did st items pa da sch notes status pm total = Ok order →
  match create_order create_document db order with
  | (Return body, db') =>
      ∃ oid, create_document "order" order db = (inl oid, db')
             ∧ body !! "id" = Some (VStr oid)
             ∧ body !! "status" = Some (VStr (default "PENDING" status))
             ∧ default "PENDING" status ∈ Order.status_annotation
  | (HTTPException code detail, db') =>
      code = 500%Z
      ∧ ∃ e, create_document "order" order db = (inr e, db')
             ∧ detail = exc_str e
  | (Uncaught, _) => False
  end.
Proof.
  intros Hok. apply Order_new_ok in Hok as (_ & _ & _ & Hstatus & _ & _ & Hs & _).
  unfold create_order.
  destruct (create_document "order" order db) as [[oid|e] db'].
  - exists oid. split; [done|]. split; [by rewrite lookup_insert_eq|].
    split.
    + rewrite lookup_insert_ne by done. by rewrite lookup_insert_eq, Hs.
    + destruct status as [s|]; cbn; [by apply Hstatus|].
      apply (bool_decide_unpack _). vm_compute. exact I.
  - split; [done|]. by exists e.
Qed.





(** X18. In the report of [test_database] the fields [database_url] and
    [database_name] tell only whether the two environment variables are
    set and not empty; nothing of the store, not even its name, reaches
    them. *)
Theorem test_database_environment (db : option Connection) (env : Environ) :
  database_url (test_database db env)
  = Some (if getenv_truthy (DATABASE_URL env) then "✅ Set" else "❌ Not Set")
  ∧ database_name (test_database db env)
    = Some (if getenv_truthy (DATABASE_NAME env) then "✅ Set" else "❌ Not Set").
Proof. destruct db as [[name [names|e]]|]; by split. Qed.

(** X19. The report lists at most 10 collections: the first 10 names the
    store gives, and none when there is no store or the listing fails. *)
Theorem test_database_collections (db : option Connection) (env : Environ) :
  (List.length (diag_collections (test_database db env)) ≤ 10)%nat
  ∧ diag_collections (test_database db env)
    = match db with
      | Some conn =>
          match conn_collection_names conn with
          | inl names => take 10 names
          | inr _ => []
          end
      | None => []
      end.
Proof.
  destruct db as [[name [names|e]]|]; cbn; split; try done; try lia.
  rewrite length_take. lia.
Qed.

(** X20. The report says Connected exactly when there is a store handle,
    and Connected & Working exactly when, in addition, the collections
    could be listed; the placeholder the [database] field starts with is
    never what is reported. *)
Theorem test_database_status (db : option Connection) (env : Environ) :
  (connection_status (test_database db env) = "Connected" ↔ is_Some db)
  ∧ (database (test_database db env) = "✅ Connected & Working"
     ↔ ∃ conn names, db = Some conn ∧ conn_collection_names conn = inl names)
  ∧ database (test_database db env) ≠ "❌ Not Available"
  ∧ backend (test_database db env) = "✅ Running".
Proof.
  destruct db as [[name [names|e]]|]; cbn.
  - split; [split; eauto|]. split; [split; eauto|]. done.
  - split; [split; eauto|]. split; [|done].
    split; [done|]. intros (conn & names & [= <-] & Hn). done.
  - split; [split; [done|by intros [? ?]]|]. split; [|done].
    split; [done|]. intros (conn & names & Hdb & _). done.
Qed.


End OtherHandlers.

(** ** More on the record schemas *)

Section SchemaMore.

Lemma check_literal_in (field : string) (expected : list string) (s : string) :
  s ∈ expected → check_literal field expected s = [].
Proof. apply check_literal_nil. Qed.

Lemma check_supplied_literal (field : string) (expected : list string)
    (o : option string) :
  (∀ s, o = Some s → s ∈ expected) →
  check_supplied (check_literal field expected) o = [].
Proof. destruct o as [s|]; cbn; [|done]. intros H. apply check_literal_in; eauto. Qed.

Lemma check_float_ge_ok (field : string) (b : Z) (x : pyfloat) :
  float_ge x b = true → check_float_ge field b x = [].
Proof. unfold check_float_ge. by intros ->. Qed.

Lemma check_int_ge_ok (field : string) (b z : Z) :
  (b ≤ z)%Z → check_int_ge field b z = [].
Proof. unfold check_int_ge. intros H. by rewrite (proj2 (Z.leb_le b z) H). Qed.

Lemma OrderItem_new_within (n : string) (q : Z) (p : pyfloat) :
  (1 ≤ q)%Z → float_ge p 0 = true →
  OrderItem.new n q p = Ok (OrderItem.Build n q p).
Proof.
  intros Hq Hp. unfold OrderItem.new.
  by rewrite check_int_ge_ok, check_float_ge_ok.
Qed.

Lemma validate_items_within (index : nat) (raw : list (string * Z * pyfloat)) :
  Forall (λ x, (1 ≤ x.1.2)%Z ∧ float_ge x.2 0 = true) raw →
  Order.validate_items index raw
  = ([], map (λ x, OrderItem.Build x.1.1 x.1.2 x.2) raw).
Proof.
  intros Hall. revert index.
  induction Hall as [|[[n q] p] raw [Hq Hp] _ IH]; intros index; [done|].
  cbn [Order.validate_items]. rewrite IH.
  by rewrite (OrderItem_new_within n q p Hq Hp).
Qed.

(** X22. [Order] checks each field on its own and accepts every input
    whose fields are within their bounds: a listed service type, items
    with quantity at least 1 and price at least 0, a listed status and
    payment method and a total at least 0 when given. The record holds the
    data as supplied, the items in their order; the list may be empty, and
    the total is not compared with the items. *)
Theorem Order_new_within cid did st items pa da sch notes status pm total :
  st ∈ Order.service_type_literal →
  Forall (λ x, (1 ≤ x.1.2)%Z ∧ float_ge x.2 0 = true) (default [] items) →
  (∀ s, status = Some s → s ∈ Order.status_annotation) →
  (∀ m, pm = Some m → m ∈ Order.payment_method_literal) →
  (∀ t, total = Some t → float_ge t 0 = true) →
  Order.new cid did st items pa da sch notes status pm total
  = Ok {| Order.customer_id := cid; Order.driver_id := did;
          Order.service_type := st;
          Order.items :=
            map (λ x, OrderItem.Build x.1.1 x.1.2 x.2) (default [] items);
          Order.pickup_address := pa; Order.delivery_address := da;
          Order.scheduled_at := sch; Order.notes := notes;
          Order.status := default "PENDING" status;
          Order.payment_method := default "cod" pm;
          Order.total := default (Finite 0) total |}.
Proof.
  intros Hst Hitems Hstatus Hpm Htotal. unfold Order.new.
  rewrite validate_items_within by done.
  rewrite check_literal_in by done.
  rewrite !check_supplied_literal by done.
  assert (check_supplied (check_float_ge "total" 0) total = []) as ->.
  { destruct total as [t|]; cbn; [|done]. apply check_float_ge_ok; eauto. }
  done.
Qed.

(** X23. Every field declared with a [Literal] refuses a value outside its
    list: the service type and the payment method of an [Order], the role
    of a [User], the method and the status of a [Payment]. *)
Theorem literal_fields_rejected :
  (∀ cid did st items pa da sch notes status pm total,
     st ∉ Order.service_type_literal →
     ∃ e, Order.new cid did st items pa da sch notes status pm total = Err e)
  ∧ (∀ cid did st items pa da sch notes status m total,
       m ∉ Order.payment_method_literal →
       ∃ e, Order.new cid did st items pa da sch notes status (Some m) total
            = Err e)
  ∧ (∀ name phone email address r is_active,
       r ∉ User.role_literal →
       ∃ e, User.new name phone email address (Some r) is_active = Err e)
  ∧ (∀ oid amount method status tid,
       method ∉ Payment.method_literal →
       ∃ e, Payment.new oid amount method status tid = Err e)
  ∧ (∀ oid amount method s tid,
       s ∉ Payment.status_literal →
       ∃ e, Payment.new oid amount method (Some s) tid = Err e).
Proof.
  split; [|split; [|split; [|split]]].
  - intros cid did st items pa da sch notes status pm total Hst.
    destruct (result_ok_or_err
      (Order.new cid did st items pa da sch notes status pm total))
      as [[o Hok]|]; [|done].
    apply Order_new_ok in Hok as (Hin & _). done.
  - intros cid did st items pa da sch notes status m total Hm.
    destruct (result_ok_or_err
      (Order.new cid did st items pa da sch notes status (Some m) total))
      as [[o Hok]|]; [|done].
    apply Order_new_ok in Hok as (_ & _ & _ & _ & Hpm & _).
    exfalso. exact (Hm (Hpm m eq_refl)).
  - intros name phone email address r is_active Hr. unfold User.new.
    rewrite construct_err; [eauto|]. cbn. by rewrite check_literal_nil.
  - intros oid amount method status tid Hm.
    destruct (result_ok_or_err (Payment.new oid amount method status tid))
      as [[p Hok]|]; [|done].
    unfold Payment.new in Hok. apply construct_ok in Hok as [Herr _].
    apply app_eq_nil in Herr as [_ Herr]. apply app_eq_nil in Herr as [Hin _].
    by apply check_literal_nil in Hin.
  - intros oid amount method s tid Hs.
    destruct (result_ok_or_err (Payment.new oid amount method (Some s) tid))
      as [[p Hok]|]; [|done].
    unfold Payment.new in Hok. apply construct_ok in Hok as [Herr _].
    apply app_eq_nil in Herr as [_ Herr]. apply app_eq_nil in Herr as [_ Hin].
    by apply check_literal_nil in Hin.
Qed.

(** X24. A [User] is built exactly when the role, if given, is one of
    customer, driver and admin; no other field is checked. The record then
    holds the data supplied, customer and active by default. *)
Theorem User_new_iff (name phone : string) (email address role : option string)
    (is_active : option bool) (u : User.t) :
  User.new name phone email address role is_active = Ok u
  ↔ (∀ r, role = Some r → r ∈ User.role_literal)
    ∧ u = {| User.name := name; User.phone := phone; User.email := email;
             User.address := address;
             User.role := default "customer" role;
             User.is_active := default true is_active |}.
Proof.
  unfold User.new. rewrite construct_ok. split.
  - intros [Hnil <-]. split; [|done].
    intros r ->. by apply check_literal_nil in Hnil.
  - intros [Hrole ->]. split; [|done]. by apply check_supplied_literal.
Qed.

(** X25. [Payment] and [OrderItem] accept every input within their
    bounds: an amount at least 0 with a listed method and status, a
    quantity at least 1 with a price at least 0. *)
Theorem Payment_OrderItem_within :
  (∀ oid amount method status tid,
     float_ge amount 0 = true → method ∈ Payment.method_literal →
     (∀ s, status = Some s → s ∈ Payment.status_literal) →
     Payment.new oid amount method status tid
     = Ok {| Payment.order_id := oid; Payment.amount := amount;
             Payment.method := method;
             Payment.status := default "PENDING" status;
             Payment.transaction_id := tid |})
  ∧ (∀ n q price,
       (1 ≤ q)%Z → float_ge price 0 = true →
       OrderItem.new n q price = Ok (OrderItem.Build n q price)).
Proof.
  split.
  - intros oid amount method status tid Hamount Hmethod Hstatus.
    unfold Payment.new.
    by rewrite check_float_ge_ok, check_literal_in, check_supplied_literal.
  - apply OrderItem_new_within.
Qed.

End SchemaMore.

(** ** The further properties at work *)

Lemma serialize_doc_no_timestamp_witness :
  serialize_doc repr_stub sample_doc !! "created_at"
  = Some (VStr "2024-01-09T07:05:00")
  ∧ isoformat_of (VStr "2024-01-09T07:05:00") = None.
Proof.
  assert (serialize_doc repr_stub sample_doc !! "created_at"
          = Some (VStr "2024-01-09T07:05:00")) as H
    by (vm_compute; reflexivity).
  split; [exact H|].
  exact (serialize_doc_no_timestamp repr_stub sample_doc "created_at" _ H).
Defined.

Lemma serialize_doc_fixed_point_witness :
  plain_doc !! "_id" = None
  ∧ serialize_doc repr_stub plain_doc = plain_doc.
Proof.
  assert (plain_doc !! "_id" = None) as H_id by reflexivity.
  split; [exact H_id|].
  apply (proj2 (serialize_doc_fixed_point repr_stub plain_doc)).
  split; [exact H_id|].
  intros k v Hk. unfold plain_doc in Hk.
  apply lookup_insert_Some in Hk as [[_ <-]|[_ Hk]]; [reflexivity|].
  rewrite lookup_empty in Hk. discriminate Hk.
Defined.

Lemma serialize_doc_ignores_id_witness :
  sample_doc !! "_id" = Some (VObjectId sample_oid)
  ∧ serialize_doc repr_stub (<["id" := VStr "legacy-7"]> sample_doc)
    = serialize_doc repr_stub sample_doc.
Proof.
  assert (sample_doc !! "_id" = Some (VObjectId sample_oid)) as H
    by (vm_compute; reflexivity).
  split; [exact H|].
  exact (serialize_doc_ignores_id repr_stub sample_doc _ (VStr "legacy-7") H).
Defined.

Lemma serialize_doc_insert_witness :
  serialize_doc repr_stub (<["scheduled_at" := VDatetime sample_time]> sample_doc)
  = <["scheduled_at" := VStr "2024-01-09T07:05:00"]>
      (serialize_doc repr_stub sample_doc).
Proof.
  apply (serialize_doc_insert repr_stub sample_doc "scheduled_at"
           (VDatetime sample_time)); discriminate.
Defined.

Lemma validate_canonical_string_witness :
  List.length (ObjectId.binary sample_oid) = 12%nat
  ∧ PyObjectId.validate (VStr sample_id_lower) = inl sample_oid.
Proof.
  split; [reflexivity|].
  exact (validate_canonical_string sample_oid eq_refl).
Defined.


Lemma validate_failure_witness :
  PyObjectId.validate (VStr "not-a-valid-id") = inr "Invalid ObjectId"
  ∧ ObjectId.is_valid "not-a-valid-id" = false.
Proof.
  assert (PyObjectId.validate (VStr "not-a-valid-id") = inr "Invalid ObjectId")
    as H by reflexivity.
  split; [exact H|].
  exact (proj2 (proj2 (validate_failure _ _ H)) _ eq_refl).
Defined.

Lemma update_order_status_effect_witness :
  ObjectId.new sample_id_lower = Some sample_oid
  ∧ find (matches_id sample_oid) (collection sample_db "order")
    = Some stored_sample_order
  ∧ ∃ d',
      (update_order_status repr_stub (Some sample_db) sample_id_lower delivered).2
      = Some d'
      ∧ calls d' = [update_one_call "order" sample_oid "DELIVERED";
                    find_one_call "order" sample_oid]
      ∧ issued d' = 1%N.
Proof.
  assert (ObjectId.new sample_id_lower = Some sample_oid) as Hnew
    by (vm_compute; reflexivity).
  assert (find (matches_id sample_oid) (collection sample_db "order")
          = Some stored_sample_order) as Hfind by (vm_compute; reflexivity).
  split; [exact Hnew|]. split; [exact Hfind|].
  destruct (update_order_status_effect repr_stub sample_db sample_id_lower
              delivered sample_oid stored_sample_order Hnew Hfind)
    as (d' & pre & post & Hrun & _ & _ & _ & _ & Hcalls & Hissued).
  exists d'. split; [exact Hrun|]. split; [exact Hcalls|exact Hissued].
Defined.

Lemma update_order_status_not_found_effect_witness :
  ObjectId.new sample_id_lower = Some sample_oid
  ∧ ∃ d',
      update_order_status repr_stub (Some empty_db) sample_id_lower delivered
      = (HTTPException 404 "Order not found", Some d')
      ∧ collection d' "order" = []
      ∧ calls d' = [update_one_call "order" sample_oid "DELIVERED"].
Proof.
  assert (ObjectId.new sample_id_lower = Some sample_oid) as Hnew
    by (vm_compute; reflexivity).
  split; [exact Hnew|].
  destruct (update_order_status_not_found_effect repr_stub empty_db
              sample_id_lower delivered sample_oid Hnew (Forall_nil_2 _))
    as (d' & Hrun & Hcoll & Hcalls & _).
  exists d'. split; [exact Hrun|]. split; [exact (Hcoll "order")|exact Hcalls].
Defined.

Lemma update_order_status_body_witness :
  ObjectId.new sample_id_lower = Some sample_oid
  ∧ find (matches_id sample_oid) (collection sample_db "order")
    = Some stored_sample_order
  ∧ (update_order_status repr_stub (Some sample_db) sample_id_lower delivered).1
    = Return (<["status" := VStr "DELIVERED"]>
                (serialize_doc repr_stub stored_sample_order)).
Proof.
  assert (ObjectId.new sample_id_lower = Some sample_oid) as Hnew
    by (vm_compute; reflexivity).
  assert (find (matches_id sample_oid) (collection sample_db "order")
          = Some stored_sample_order) as Hfind by (vm_compute; reflexivity).
  split; [exact Hnew|]. split; [exact Hfind|].
  exact (update_order_status_body repr_stub sample_db sample_id_lower delivered
           sample_oid stored_sample_order Hnew Hfind).
Defined.


Lemma update_order_status_keeps_declared_witness :
  StatusUpdate.new "DELIVERED" = Ok delivered
  ∧ Forall status_declared (collection sample_db "order")
  ∧ ∃ d',
      (update_order_status repr_stub (Some sample_db) sample_id_lower delivered).2
      = Some d'
      ∧ Forall status_declared (collection d' "order").
Proof.
  assert (StatusUpdate.new "DELIVERED" = Ok delivered) as Hpayload
    by (vm_compute; reflexivity).
  assert (Forall status_declared (collection sample_db "order")) as Hinv.
  { assert (collection sample_db "order" = [stored_sample_order]) as ->
      by (vm_compute; reflexivity).
    apply Forall_cons_2; [|apply Forall_nil_2].
    exists "PENDING". split; [vm_compute; reflexivity|].
    apply (bool_decide_unpack _). vm_compute. exact I. }
  split; [exact Hpayload|]. split; [exact Hinv|].
  destruct (update_order_status repr_stub (Some sample_db) sample_id_lower
              delivered).2 as [d'|] eqn:Hrun.
  - exists d'. split; [reflexivity|].
    exact (update_order_status_keeps_declared repr_stub sample_db d'
             sample_id_lower "DELIVERED" delivered Hpayload Hinv Hrun).
  - vm_compute in Hrun. discriminate Hrun.
Defined.

Lemma get_orders_decoded_witness :
  ∃ out,
    get_orders repr_stub one_order_found (Some sample_db) None
    = (Return out, Some sample_db)
    ∧ List.length out = 1%nat
    ∧ Forall (λ o, o !! "_id" = None
                   ∧ ∀ k v, o !! k = Some v → isoformat_of v = None) out.
Proof.
  destruct (get_orders_decoded repr_stub one_order_found (Some sample_db) None)
    as (out & Hrun & Hlen & _ & Hall).
  exists out. split; [exact Hrun|]. split; [exact Hlen|exact Hall].
Defined.

Lemma create_order_cases_witness :
  Order.new "u1" None "wash_fold" (Some [("Shirt", 2%Z, Finite 5)])
    "12 Mill Lane" "12 Mill Lane" None None (Some "IN_WASH") None None
  = Ok (Order.Build "u1" None "wash_fold" [OrderItem.Build "Shirt" 2 (Finite 5)]
          "12 Mill Lane" "12 Mill Lane" None None "IN_WASH" "cod" (Finite 0))
  ∧ ∃ body db',
      create_order create_document_spec (Some sample_db)
        (Order.Build "u1" None "wash_fold" [OrderItem.Build "Shirt" 2 (Finite 5)]
           "12 Mill Lane" "12 Mill Lane" None None "IN_WASH" "cod" (Finite 0))
      = (Return body, db')
      ∧ body !! "status" = Some (VStr "IN_WASH").
Proof.
  set (order := Order.Build "u1" None "wash_fold"
                  [OrderItem.Build "Shirt" 2 (Finite 5)]
                  "12 Mill Lane" "12 Mill Lane" None None "IN_WASH" "cod"
                  (Finite 0)).
  assert (Order.new "u1" None "wash_fold" (Some [("Shirt", 2%Z, Finite 5)])
            "12 Mill Lane" "12 Mill Lane" None None (Some "IN_WASH") None None
          = Ok order) as Hnew by (vm_compute; reflexivity).
  split; [exact Hnew|].
  pose proof (create_order_cases create_document_spec (Some sample_db)
                _ _ _ _ _ _ _ _ _ _ _ order Hnew) as Hcases.
  destruct (create_order create_document_spec (Some sample_db) order)
    as [[body|code detail|] db'] eqn:Hrun.
  - destruct Hcases as (oid & _ & _ & Hstatus & _).
    exists body, db'. split; [reflexivity|exact Hstatus].
  - vm_compute in Hrun. discriminate Hrun.
  - destruct Hcases.
Defined.

Lemma test_database_status_witness :
  is_Some (Some failing_connection)
  ∧ connection_status (test_database (Some failing_connection) sample_environ)
    = "Connected".
Proof.
  assert (is_Some (Some failing_connection)) as H by (eexists; reflexivity).
  split; [exact H|].
  exact (proj2 (proj1 (test_database_status (Some failing_connection)
                         sample_environ)) H).
Defined.


Lemma Order_new_within_witness :
  Order.new "u1" None "wash_fold" (Some [("Shirt", 2%Z, Finite 5)])
    "12 Mill Lane" "12 Mill Lane" None None None None None = Ok sample_order.
Proof.
  apply (Order_new_within "u1" None "wash_fold"
           (Some [("Shirt", 2%Z, Finite 5)]) "12 Mill Lane" "12 Mill Lane"
           None None None None None).
  - apply (bool_decide_unpack _). vm_compute. exact I.
  - apply Forall_cons_2; [|apply Forall_nil_2]. split; [cbn; lia|reflexivity].
  - intros s Hs. discriminate Hs.
  - intros m Hm. discriminate Hm.
  - intros t Ht. discriminate Ht.
Defined.

Lemma literal_fields_rejected_witness :
  ("espresso" ∉ Order.service_type_literal)
  ∧ ∃ e, Order.new "u1" None "espresso" None "12 Mill Lane" "12 Mill Lane"
           None None None None None = Err e.
Proof.
  assert ("espresso" ∉ Order.service_type_literal) as Hnot.
  { apply (bool_decide_unpack _). vm_compute. exact I. }
  split; [exact Hnot|].
  exact (proj1 literal_fields_rejected "u1" None "espresso" None
           "12 Mill Lane" "12 Mill Lane" None None None None None Hnot).
Defined.

Lemma User_new_iff_witness :
  User.new "Ada" "555-0100" None None (Some "admin") None
  = Ok (User.Build "Ada" "555-0100" None None "admin" true).
Proof.
  apply (proj2 (User_new_iff "Ada" "555-0100" None None (Some "admin") None _)).
  split; [|reflexivity].
  intros r [= <-]. apply (bool_decide_unpack _). vm_compute. exact I.
Defined.

Lemma Payment_OrderItem_within_witness :
  Payment.new "o1" (Finite 10) "card" None None = Ok sample_payment
  ∧ OrderItem.new "Shirt" 2 (Finite 5) = Ok (OrderItem.Build "Shirt" 2 (Finite 5)).
Proof.
  destruct Payment_OrderItem_within as [Hpayment Hitem].
  split.
  - apply (Hpayment "o1" (Finite 10) "card" None None).
    + reflexivity.
    + apply (bool_decide_unpack _). vm_compute. exact I.
    + intros s Hs. discriminate Hs.
  - apply (Hitem "Shirt" 2%Z (Finite 5)); [lia|reflexivity].
Defined.
